(** * Mixed Effects Random Forest (merf/merf.py): a shallow embedding

    The class [MERF] of [merf/merf.py] is embedded as state-passing code over
    a world made of the model object ([self]), the heap of pandas frames that
    the program aliases and mutates in place, and the position in the random
    stream that the forest regressor consumes.

    Numbers are kept behind an interface ([Float64]): the embedding fixes
    which operations the program performs and in which order, not how binary64
    rounds them.  The numpy and pandas routines the program calls are written
    out on lists; they are total, and agree with the library on arrays of
    conforming shapes (where the library raises, on non-conforming shapes, the
    list versions truncate).  Exceptions raised by the program's own
    statements are modelled: a failed assert, an unbound local, a missing key
    or attribute, a list index out of range, a division of Python numbers by
    zero, NotFittedError and NotImplementedError.  Exceptions raised inside
    numpy, pandas or the regressor are not. *)

From stdpp Require Import base list gmap sorting.
From Stdlib Require Import ZArith.

Set Default Proof Using "Type".

(** ** Numbers and external routines *)

(** binary64 arithmetic as numpy exposes it to the program, together with the
    two LAPACK-backed routines the program calls on matrices. *)
Class Float64 := {
  scalar : Type;
  of_int : Z → scalar;                    (* a Python int entering float arithmetic *)
  fadd : scalar → scalar → scalar;
  fsub : scalar → scalar → scalar;
  fmul : scalar → scalar → scalar;
  fdiv : scalar → scalar → scalar;
  fabs : scalar → scalar;                 (* np.abs *)
  flt : scalar → scalar → bool;           (* < *)
  pinv : list (list scalar) → list (list scalar);       (* np.linalg.pinv *)
  slogdet : list (list scalar) → scalar * scalar;       (* np.linalg.slogdet: (sign, log|det|) *)
}.

Abbreviation vector := (list scalar).
Abbreviation matrix := (list (list scalar)).

(** sklearn's RandomForestRegressor(n_estimators, oob_score=True): fitting
    draws from the global random stream, whose position is the first argument. *)
Class Regressor `{Float64} := {
  forest : Type;
  rf_fit : nat → Z → matrix → vector → forest;
  oob_prediction_ : forest → vector;
  rf_predict : forest → matrix → vector;
}.

(** ** numpy on lists *)
Section numpy.
Context `{Float64}.

Definition np_zeros (n : nat) : vector := replicate n (of_int 0).

Definition np_eye (n : nat) : matrix :=
  (λ i, (λ j, if decide (i = j) then of_int 1 else of_int 0) <$> seq 0 n) <$> seq 0 n.

(** [Z.shape[1]]; an empty list of rows carries no column count and reads 0. *)
Definition shape1 (M : matrix) : nat := length (hd [] M).

(** [M.T] *)
Definition transpose (M : matrix) : matrix :=
  (λ j, (λ r, nth j r (of_int 0)) <$> M) <$> seq 0 (shape1 M).

(** [u.dot(v)] for two 1-D arrays *)
Definition vdot (u v : vector) : scalar :=
  fold_left fadd (zip_with fmul u v) (of_int 0).

(** [M.dot(v)] *)
Definition mv_dot (M : matrix) (v : vector) : vector := (λ r, vdot r v) <$> M.

(** [v.dot(M)] *)
Definition vm_dot (v : vector) (M : matrix) : vector := (λ c, vdot v c) <$> transpose M.

(** [A.dot(B)] *)
Definition mm_dot (A B : matrix) : matrix := (λ r, vm_dot r B) <$> A.

Definition vsub (u v : vector) : vector := zip_with fsub u v.
Definition madd (A B : matrix) : matrix := zip_with (zip_with fadd) A B.
Definition msub (A B : matrix) : matrix := zip_with (zip_with fsub) A B.

(** [s * M], scalar broadcast *)
Definition smul (s : scalar) (M : matrix) : matrix := (λ r : vector, fmul s <$> r) <$> M.

(** [s + M], scalar broadcast *)
Definition sadd (s : scalar) (M : matrix) : matrix := (λ r : vector, fadd s <$> r) <$> M.

Definition np_outer (u v : vector) : matrix := (λ a, fmul a <$> v) <$> u.

Definition np_trace (M : matrix) : scalar :=
  fold_left fadd (imap (λ i r, nth i r (of_int 0)) M) (of_int 0).

(** [a[mask]]: the entries (rows) of [a] where the boolean mask holds *)
Fixpoint mask_select {A} (a : list A) (mask : list bool) : list A :=
  match a, mask with
  | x :: a', b :: mask' => if b then x :: mask_select a' mask' else mask_select a' mask'
  | _, _ => []
  end.

(** [a[mask] = v]: the entries of [v] go, in order, to the masked positions *)
Fixpoint mask_assign {A} (a : list A) (mask : list bool) (v : list A) : list A :=
  match a, mask with
  | x :: a', b :: mask' =>
      if b then
        match v with
        | e :: v' => e :: mask_assign a' mask' v'
        | [] => x :: mask_assign a' mask' []
        end
      else x :: mask_assign a' mask' v
  | _, _ => a
  end.

(** [a[mask] += v] *)
Fixpoint mask_iadd (a : vector) (mask : list bool) (v : vector) : vector :=
  match a, mask with
  | x :: a', b :: mask' =>
      if b then
        match v with
        | e :: v' => fadd x e :: mask_iadd a' mask' v'
        | [] => x :: mask_iadd a' mask' []
        end
      else x :: mask_iadd a' mask' v
  | _, _ => a
  end.
End numpy.

(** ** pandas on lists *)

(** A Series of counts indexed by cluster label, and a DataFrame of
    coefficient rows indexed by cluster label: label order is index order. *)
Abbreviation Series label := (list (label * nat)).
Abbreviation DataFrame label := (list (label * vector)).

Section pandas.
Context `{Float64} {label : Type} `{Countable label}.


(** [clusters == cluster_id] *)
Definition eq_mask (clusters : list label) (cluster_id : label) : list bool :=
  (λ c, bool_decide (c = cluster_id)) <$> clusters.

Definition count_of (clusters : list label) (cluster_id : label) : nat :=
  length (filter (λ c, c = cluster_id) clusters).

(** [clusters.nunique()] *)
Definition nunique (clusters : list label) : nat := length (remove_dups clusters).

Definition more_frequent (a b : label * nat) : Prop := (b.2 ≤ a.2)%nat.

Global Instance more_frequent_dec a b : Decision (more_frequent a b).
Proof. unfold more_frequent. apply _. Defined.

(** [clusters.value_counts()]: one entry per distinct label, most frequent
    first.  (pandas leaves the order among equal counts unspecified; nothing
    below depends on it.) *)
Definition value_counts (clusters : list label) : Series label :=
  merge_sort more_frequent ((λ c, (c, count_of clusters c)) <$> remove_dups clusters).

(** [s.index] *)
Definition index {V} (s : list (label * V)) : list label := s.*1.

(** [s[key]] and [df.loc[key]] *)
Fixpoint loc_get {V} (s : list (label * V)) (key : label) : option V :=
  match s with
  | [] => None
  | (k, v) :: s' => if decide (k = key) then Some v else loc_get s' key
  end.

Definition has_key {V} (s : list (label * V)) (key : label) : bool :=
  bool_decide (key ∈ index s).

(** [df.loc[key, :] = row]: every row labelled [key] is overwritten; a
    missing label enlarges the frame. *)
Definition loc_set (df : DataFrame label) (key : label) (row : vector) : DataFrame label :=
  if has_key df key
  then (λ kv : label * vector, if decide (kv.1 = key) then (kv.1, row) else kv) <$> df
  else df ++ [(key, row)].

(** [pd.DataFrame(np.zeros((n, q)), index=idx)] *)
Definition zeros_frame (idx : list label) (q : nat) : DataFrame label :=
  (λ k, (k, np_zeros q)) <$> idx.
End pandas.

(** ** Exceptions, the world, and the monad of method bodies *)

Inductive exn :=
  | AssertionError | AttributeError | IndexError | KeyError | ZeroDivisionError
  | UnboundLocalError | NotFittedError | NotImplementedError.

Inductive result (A : Type) :=
  | Ok (a : A)
  | Raise (e : exn).
Arguments Ok {A} a.
Arguments Raise {A} e.

Abbreviation loc := nat.

Section model.
Context `{Regressor} {label : Type} `{Countable label}.

(** The attributes of a [MERF] object.  The entries of [b_hat_history] and
    [trained_b] are references to frames on the heap. *)
Record MERF := {
  n_estimators : Z;
  min_iterations : Z;
  gll_early_stop_threshold : option scalar;
  max_iterations : Z;
  cluster_counts : option (Series label);
  trained_rf : option forest;
  trained_b : option loc;
  b_hat_history : list loc;
  sigma2_hat_history : list scalar;
  D_hat_history : list matrix;
  gll_history : list scalar;
}.

(** [MERF.__init__] *)
Definition MERF_init (n_estimators min_iterations : Z)
    (gll_early_stop_threshold : option scalar) (max_iterations : Z) : MERF :=
  {| n_estimators := n_estimators;
     min_iterations := min_iterations;
     gll_early_stop_threshold := gll_early_stop_threshold;
     max_iterations := max_iterations;
     cluster_counts := None;
     trained_rf := None;
     trained_b := None;
     b_hat_history := [];
     sigma2_hat_history := [];
     D_hat_history := [];
     gll_history := [] |}.

Record world := {
  self : MERF;
  heap : list (DataFrame label);    (* pandas frames, by address *)
  rng : nat;                           (* position in the global random stream *)
}.

Definition M (A : Type) : Type := world → result A * world.

Definition ret {A} (a : A) : M A := λ w, (Ok a, w).
Definition raise {A} (e : exn) : M A := λ w, (Raise e, w).
Definition bind {A B} (m : M A) (k : A → M B) : M B :=
  λ w, match m w with
       | (Ok a, w') => k a w'
       | (Raise e, w') => (Raise e, w')
       end.
Definition gets {A} (f : world → A) : M A := λ w, (Ok (f w), w).
Definition modify (f : world → world) : M unit := λ w, (Ok tt, f w).
End model.

Notation "x <- m ;; k" := (bind m (λ x, k))
  (at level 100, m at next level, right associativity,
   format "'[v' x  <-  m  ;; '/' k ']'").
Notation "m ;;; k" := (bind m (λ _, k))
  (at level 100, right associativity, format "'[v' m  ;;; '/' k ']'").

Section model_ops.
Context `{Regressor} {label : Type} `{Countable label}.
Local Abbreviation M := (@M _ _ label).
Local Abbreviation world := (@world _ _ label).
Local Abbreviation MERF := (@MERF _ _ label).

(** [for a in l: s = body(s, a)] *)
Fixpoint for_fold {A S} (l : list A) (s : S) (body : S → A → M S) : M S :=
  match l with
  | [] => ret s
  | a :: l' => s' <- body s a ;; for_fold l' s' body
  end.

Definition py_assert (b : bool) : M unit :=
  if b then ret tt else raise AssertionError.

(** [d[key]] on a dict *)
Definition dict_get {V} (d : gmap label V) (key : label) : M V :=
  match d !! key with
  | Some v => ret v
  | None => raise KeyError
  end.

(** [s[key]] on a Series, [df.loc[key]] on a DataFrame *)
Definition loc_getM {V} (s : list (label * V)) (key : label) : M V :=
  match loc_get s key with
  | Some v => ret v
  | None => raise KeyError
  end.

(** [o.attr] where [o] may be [None] *)
Definition attr_of {V} (o : option V) : M V :=
  match o with
  | Some v => ret v
  | None => raise AttributeError
  end.

(** [x / n] for a Python float [x] and a Python int [n] *)
Definition py_truediv (x : scalar) (n : nat) : M scalar :=
  match n with
  | O => raise ZeroDivisionError
  | _ => ret (fdiv x (of_int (Z.of_nat n)))
  end.

(** [l[-2]] on a Python list *)
Definition py_index_m2 {V} (l : list V) : M V :=
  if decide (2 ≤ length l)%nat then
    match l !! (length l - 2)%nat with
    | Some v => ret v
    | None => raise IndexError
    end
  else raise IndexError.

Definition set_self (f : MERF → MERF) (w : world) : world :=
  {| self := f (self w); heap := heap w; rng := rng w |}.
Definition set_heap (h : list (DataFrame label)) (w : world) : world :=
  {| self := self w; heap := h; rng := rng w |}.
Definition set_rng (n : nat) (w : world) : world :=
  {| self := self w; heap := heap w; rng := n |}.

(** the frame a reference points to *)
Definition deref (l : loc) : M (DataFrame label) := gets (λ w, heap w !!! l).

(** a new frame object *)
Definition alloc (df : DataFrame label) : M loc :=
  λ w, (Ok (length (heap w)), set_heap (heap w ++ [df]) w).

(** [df.copy()] *)
Definition frame_copy (l : loc) : M loc := df <- deref l ;; alloc df.

(** [df.loc[key, :] = row], in place *)
Definition frame_loc_set (l : loc) (key : label) (row : vector) : M unit :=
  modify (λ w, set_heap (<[l := loc_set (heap w !!! l) key row]> (heap w)) w).

(** attribute writes *)
Definition with_min_iterations (v : Z) (s : MERF) : MERF :=
  {| n_estimators := n_estimators s; min_iterations := v;
     gll_early_stop_threshold := gll_early_stop_threshold s;
     max_iterations := max_iterations s; cluster_counts := cluster_counts s;
     trained_rf := trained_rf s; trained_b := trained_b s;
     b_hat_history := b_hat_history s; sigma2_hat_history := sigma2_hat_history s;
     D_hat_history := D_hat_history s; gll_history := gll_history s |}.
Definition with_cluster_counts (v : option (Series label)) (s : MERF) : MERF :=
  {| n_estimators := n_estimators s; min_iterations := min_iterations s;
     gll_early_stop_threshold := gll_early_stop_threshold s;
     max_iterations := max_iterations s; cluster_counts := v;
     trained_rf := trained_rf s; trained_b := trained_b s;
     b_hat_history := b_hat_history s; sigma2_hat_history := sigma2_hat_history s;
     D_hat_history := D_hat_history s; gll_history := gll_history s |}.
Definition with_trained_rf (v : option forest) (s : MERF) : MERF :=
  {| n_estimators := n_estimators s; min_iterations := min_iterations s;
     gll_early_stop_threshold := gll_early_stop_threshold s;
     max_iterations := max_iterations s; cluster_counts := cluster_counts s;
     trained_rf := v; trained_b := trained_b s;
     b_hat_history := b_hat_history s; sigma2_hat_history := sigma2_hat_history s;
     D_hat_history := D_hat_history s; gll_history := gll_history s |}.
Definition with_trained_b (v : option loc) (s : MERF) : MERF :=
  {| n_estimators := n_estimators s; min_iterations := min_iterations s;
     gll_early_stop_threshold := gll_early_stop_threshold s;
     max_iterations := max_iterations s; cluster_counts := cluster_counts s;
     trained_rf := trained_rf s; trained_b := v;
     b_hat_history := b_hat_history s; sigma2_hat_history := sigma2_hat_history s;
     D_hat_history := D_hat_history s; gll_history := gll_history s |}.
(** [self.b_hat_history.append(b); self.sigma2_hat_history.append(s2);
    self.D_hat_history.append(D)] *)
Definition append_history (b : loc) (s2 : scalar) (D : matrix) (s : MERF) : MERF :=
  {| n_estimators := n_estimators s; min_iterations := min_iterations s;
     gll_early_stop_threshold := gll_early_stop_threshold s;
     max_iterations := max_iterations s; cluster_counts := cluster_counts s;
     trained_rf := trained_rf s; trained_b := trained_b s;
     b_hat_history := b_hat_history s ++ [b];
     sigma2_hat_history := sigma2_hat_history s ++ [s2];
     D_hat_history := D_hat_history s ++ [D]; gll_history := gll_history s |}.
(** [self.gll_history.append(gll)] *)
Definition append_gll (gll : scalar) (s : MERF) : MERF :=
  {| n_estimators := n_estimators s; min_iterations := min_iterations s;
     gll_early_stop_threshold := gll_early_stop_threshold s;
     max_iterations := max_iterations s; cluster_counts := cluster_counts s;
     trained_rf := trained_rf s; trained_b := trained_b s;
     b_hat_history := b_hat_history s; sigma2_hat_history := sigma2_hat_history s;
     D_hat_history := D_hat_history s; gll_history := gll_history s ++ [gll] |}.
End model_ops.

(** ** The methods of [MERF] *)
Section methods.
Context `{Regressor} {label : Type} `{Countable label}.
Local Abbreviation M := (@M _ _ label).
Local Abbreviation world := (@world _ _ label).
Local Abbreviation MERF := (@MERF _ _ label).

(** *** predict (merf.py, lines 32-66) *)
Definition predict (X Z : matrix) (clusters : list label) : M vector :=
  rf_opt <- gets (λ w, trained_rf (self w)) ;;
  match rf_opt with
  | None => raise NotFittedError
  | Some rf =>
      let y_hat := rf_predict rf X in
      counts <- (c <- gets (λ w, cluster_counts (self w)) ;; attr_of c) ;;
      for_fold (index counts) y_hat (λ y_hat cluster_id,
        let indices_i := eq_mask clusters cluster_id in
        if decide (length indices_i = 0%nat) then ret y_hat
        else
          b_ref <- (b <- gets (λ w, trained_b (self w)) ;; attr_of b) ;;
          df <- deref b_ref ;;
          b_i <- loc_getM df cluster_id ;;
          let Z_i := mask_select Z indices_i in
          ret (mask_iadd y_hat indices_i (mv_dot Z_i b_i)))
  end.

(** *** score (merf.py, lines 266-267) *)
Definition score (X Z : matrix) (clusters : list label) (y : vector) : M unit :=
  raise NotImplementedError.

(** *** fit (merf.py, lines 68-264) *)

(** The five dicts filled once per fit (lines 93-97). *)
Record caches := {
  Z_by_cluster : gmap label matrix;
  y_by_cluster : gmap label vector;
  n_by_cluster : gmap label nat;
  I_by_cluster : gmap label matrix;
  indices_by_cluster : gmap label (list bool);
}.

Definition empty_caches : caches :=
  {| Z_by_cluster := ∅; y_by_cluster := ∅; n_by_cluster := ∅;
     I_by_cluster := ∅; indices_by_cluster := ∅ |}.

(** lines 100-111 *)
Definition build_caches (counts : Series label) (Z : matrix)
    (clusters : list label) (y : vector) : M caches :=
  for_fold (index counts) empty_caches (λ c cluster_id,
    let indices_i := eq_mask clusters cluster_id in
    n_i <- loc_getM counts cluster_id ;;
    ret {| indices_by_cluster := <[cluster_id := indices_i]> (indices_by_cluster c);
           Z_by_cluster := <[cluster_id := mask_select Z indices_i]> (Z_by_cluster c);
           y_by_cluster := <[cluster_id := mask_select y indices_i]> (y_by_cluster c);
           n_by_cluster := <[cluster_id := n_i]> (n_by_cluster c);
           I_by_cluster := <[cluster_id := np_eye n_i]> (I_by_cluster c) |}).

(** The local variables that live across iterations of the while loop;
    [rf] is unbound until the loop body has run. *)
Record locals := {
  iteration : Z;
  b_hat_df : loc;
  sigma2_hat : scalar;
  D_hat : matrix;
  stop_flag : bool;
  iter_begun : bool;
  rf : option forest;
}.

(** [D_hat_sum]: the int 0 it starts as, or the array it becomes at the
    first [+=]. *)
Inductive accum :=
  | Int0
  | Arr (a : matrix).

(** [D_hat_sum += m] *)
Definition accum_iadd (acc : accum) (m : matrix) : accum :=
  match acc with
  | Int0 => Arr (sadd (of_int 0) m)
  | Arr a => Arr (madd a m)
  end.

(** [r * D_hat_sum].  The [Int0] case (a pass over no cluster) is not
    reached: [n_clusters] is then 0 and computing [r] has raised. *)
Definition accum_scale (r : scalar) (acc : accum) : matrix :=
  match acc with
  | Int0 => []
  | Arr a => smul r a
  end.

Section em.
Variables (X : matrix) (y : vector) (cluster_index : list label)
          (n_obs n_clusters : nat) (ctx : caches).

(** E-step, lines 137-148 *)
Definition e_step (b_hat_df : loc) : M vector :=
  for_fold cluster_index (np_zeros (length y)) (λ y_star cluster_id,
    y_i <- dict_get (y_by_cluster ctx) cluster_id ;;
    Z_i <- dict_get (Z_by_cluster ctx) cluster_id ;;
    df <- deref b_hat_df ;;
    b_hat_i <- loc_getM df cluster_id ;;
    indices_i <- dict_get (indices_by_cluster ctx) cluster_id ;;
    let y_star_i := vsub y_i (mv_dot Z_i b_hat_i) in
    ret (mask_assign y_star indices_i y_star_i)).

(** M-step, lines 160-206 *)
Definition m_step (f_hat : vector) (b_hat_df : loc)
    (sigma2_hat : scalar) (D_hat : matrix) : M (scalar * matrix) :=
  sums <- for_fold cluster_index (of_int 0, Int0) (λ sums cluster_id,
    indices_i <- dict_get (indices_by_cluster ctx) cluster_id ;;
    y_i <- dict_get (y_by_cluster ctx) cluster_id ;;
    Z_i <- dict_get (Z_by_cluster ctx) cluster_id ;;
    n_i <- dict_get (n_by_cluster ctx) cluster_id ;;
    I_i <- dict_get (I_by_cluster ctx) cluster_id ;;
    let f_hat_i := mask_select f_hat indices_i in
    let V_hat_i := madd (mm_dot (mm_dot Z_i D_hat) (transpose Z_i)) (smul sigma2_hat I_i) in
    let V_hat_inv_i := pinv V_hat_i in
    let b_hat_i :=
      mv_dot (mm_dot (mm_dot D_hat (transpose Z_i)) V_hat_inv_i) (vsub y_i f_hat_i) in
    let eps_hat_i := vsub (vsub y_i f_hat_i) (mv_dot Z_i b_hat_i) in
    frame_loc_set b_hat_df cluster_id b_hat_i ;;;
    ret (fadd sums.1
           (fadd (vdot eps_hat_i eps_hat_i)
                 (fmul sigma2_hat
                    (fsub (of_int (Z.of_nat n_i))
                          (fmul sigma2_hat (np_trace V_hat_inv_i))))),
         accum_iadd sums.2
           (madd (np_outer b_hat_i b_hat_i)
                 (msub D_hat
                    (mm_dot (mm_dot (mm_dot (mm_dot D_hat (transpose Z_i)) V_hat_inv_i) Z_i)
                            D_hat))))) ;;
  r_obs <- py_truediv (of_int 1) n_obs ;;
  let sigma2_hat' := fmul r_obs sums.1 in
  r_clusters <- py_truediv (of_int 1) n_clusters ;;
  let D_hat' := accum_scale r_clusters sums.2 in
  ret (sigma2_hat', D_hat').

(** Generalized log-likelihood, lines 218-242 *)
Definition gll_loop (f_hat : vector) (b_hat_df : loc)
    (sigma2_hat : scalar) (D_hat : matrix) : M scalar :=
  for_fold cluster_index (of_int 0) (λ gll cluster_id,
    indices_i <- dict_get (indices_by_cluster ctx) cluster_id ;;
    y_i <- dict_get (y_by_cluster ctx) cluster_id ;;
    Z_i <- dict_get (Z_by_cluster ctx) cluster_id ;;
    I_i <- dict_get (I_by_cluster ctx) cluster_id ;;
    let f_hat_i := mask_select f_hat indices_i in
    let R_hat_i := smul sigma2_hat I_i in
    df <- deref b_hat_df ;;
    b_hat_i <- loc_getM df cluster_id ;;
    let logdet_D_hat := (slogdet D_hat).2 in
    let logdet_R_hat_i := (slogdet R_hat_i).2 in
    let resid := vsub (vsub y_i f_hat_i) (mv_dot Z_i b_hat_i) in
    ret (fadd gll
           (fadd (fadd (fadd (vdot (vm_dot resid (pinv R_hat_i)) resid)
                             (vdot (vm_dot b_hat_i (pinv D_hat)) b_hat_i))
                       logdet_D_hat)
                 logdet_R_hat_i))).

(** Early-stop decision, lines 247-257; returns the new
    [(stop_flag, iter_begun)]. *)
Definition stop_check (gll : scalar) (stop_flag iter_begun : bool) : M (bool * bool) :=
  thr <- gets (λ w, gll_early_stop_threshold (self w)) ;;
  match thr with
  | None => ret (stop_flag, iter_begun)
  | Some threshold =>
      if negb iter_begun then ret (stop_flag, true)
      else
        prev <- (h <- gets (λ w, gll_history (self w)) ;; py_index_m2 h) ;;
        let curr_threshold := fabs (fdiv (fsub gll prev) prev) in
        if flt curr_threshold threshold then ret (true, iter_begun)
        else ret (stop_flag, iter_begun)
  end.

(** One pass through the body of the while loop, lines 130-257.  The calls
    to the logger are left out, and so is the assert of line 152, which holds
    of every 1-D array. *)
Definition em_body (st : locals) : M locals :=
  let iteration := (iteration st + 1)%Z in
  y_star <- e_step (b_hat_df st) ;;
  n_est <- gets (λ w, n_estimators (self w)) ;;
  seed <- gets rng ;;
  modify (set_rng (S seed)) ;;;
  let rf := rf_fit seed n_est X y_star in
  let f_hat := oob_prediction_ rf in
  vc <- m_step f_hat (b_hat_df st) (sigma2_hat st) (D_hat st) ;;
  let sigma2_hat := vc.1 in
  let D_hat := vc.2 in
  snapshot <- frame_copy (b_hat_df st) ;;
  modify (set_self (append_history snapshot sigma2_hat D_hat)) ;;;
  gll <- gll_loop f_hat (b_hat_df st) sigma2_hat D_hat ;;
  modify (set_self (append_gll gll)) ;;;
  flags <- stop_check gll (stop_flag st) (iter_begun st) ;;
  ret {| iteration := iteration; b_hat_df := b_hat_df st;
         sigma2_hat := sigma2_hat; D_hat := D_hat;
         stop_flag := flags.1; iter_begun := flags.2; rf := Some rf |}.

(** [while iteration < self.max_iterations and not stop_flag], line 129.
    [budget] is [max_iterations - iteration], the variant of the loop:
    it is 0 exactly when the first conjunct fails. *)
Fixpoint em_loop (budget : nat) (st : locals) : M locals :=
  match budget with
  | O => ret st
  | S budget' =>
      if stop_flag st then ret st
      else st' <- em_body st ;; em_loop budget' st'
  end.
End em.

(** lines 78-257: everything up to the end of the while loop; returns the
    locals and the value counts that the last three assignments use. *)
Definition fit_em (X Z : matrix) (clusters : list label) (y : vector)
    : M (Series label * locals) :=
  py_assert (bool_decide (length Z = length X)) ;;;
  py_assert (bool_decide (length y = length X)) ;;;
  py_assert (bool_decide (length clusters = length X)) ;;;
  let n_clusters := nunique clusters in
  let n_obs := length y in
  let q := shape1 Z in
  let counts := value_counts clusters in
  ctx <- build_caches counts Z clusters y ;;
  b_hat_df <- alloc (zeros_frame (index counts) q) ;;
  let sigma2_hat := of_int 1 in
  let D_hat := np_eye q in
  modify (set_self (append_history b_hat_df sigma2_hat D_hat)) ;;;
  max_it <- gets (λ w, max_iterations (self w)) ;;
  st <- em_loop X y (index counts) n_obs n_clusters ctx (Z.to_nat max_it)
          {| iteration := 0; b_hat_df := b_hat_df; sigma2_hat := sigma2_hat;
             D_hat := D_hat; stop_flag := false; iter_begun := false; rf := None |} ;;
  ret (counts, st).

(** lines 259-264 *)
Definition fit_store (counts : Series label) (st : locals) : M unit :=
  modify (set_self (with_cluster_counts (Some counts))) ;;;
  match rf st with
  | None => raise UnboundLocalError
  | Some rf =>
      modify (set_self (with_trained_rf (Some rf))) ;;;
      modify (set_self (with_trained_b (Some (b_hat_df st))))
  end.

(** [fit] returns [self], which here is part of the world. *)
Definition fit (X Z : matrix) (clusters : list label) (y : vector) : M unit :=
  r <- fit_em X Z clusters y ;;
  fit_store r.1 r.2.
End methods.

(** ** The EM iteration in closed form, following the design document

    The quantities of one EM iteration written as functions of the inputs of
    [fit] and of the variance components the iteration starts from.  These
    are the reference that the loops of [fit] are compared with. *)
Section closed_form.
Context `{Regressor} {label : Type} `{Countable label}.
Local Abbreviation world := (@world _ _ label).

Variables (X Z : matrix) (clusters : list label) (y : vector).

(** Cluster statistics: the rows of cluster [i], its slices and its size. *)
Definition Z_of (i : label) : matrix := mask_select Z (eq_mask clusters i).
Definition y_of (i : label) : vector := mask_select y (eq_mask clusters i).
Definition n_of (i : label) : nat := count_of clusters i.
Definition I_of (i : label) : matrix := np_eye (n_of i).

(** The row of cluster [i] in a coefficient table. *)
Definition b_of (df : DataFrame label) (i : label) : vector := default [] (loc_get df i).

(** E-step: [y*_i = y_i - Z_i · b_hat_i], scattered to the rows of [i]. *)
Definition spec_y_star (ids : list label) (df : DataFrame label) : vector :=
  fold_left (λ y_star i,
               mask_assign y_star (eq_mask clusters i)
                 (vsub (y_of i) (mv_dot (Z_of i) (b_of df i))))
            ids (np_zeros (length y)).

Section m_step.
(** the held-out predictions of this iteration and the variance
    components the iteration starts from *)
Variables (f_hat : vector) (sigma2_hat : scalar) (D_hat : matrix).

Definition f_hat_of (i : label) : vector := mask_select f_hat (eq_mask clusters i).

(** [V_hat_i = Z_i · D_hat · Z_i^T + sigma2_hat · I_i] *)
Definition spec_V_hat (i : label) : matrix :=
  madd (mm_dot (mm_dot (Z_of i) D_hat) (transpose (Z_of i))) (smul sigma2_hat (I_of i)).

(** [V_hat_inv_i = pseudo-inverse(V_hat_i)] *)
Definition spec_V_hat_inv (i : label) : matrix := pinv (spec_V_hat i).

(** [b_hat_i = D_hat · Z_i^T · V_hat_inv_i · (y_i − f_hat_i)] *)
Definition spec_b_hat (i : label) : vector :=
  mv_dot (mm_dot (mm_dot D_hat (transpose (Z_of i))) (spec_V_hat_inv i))
         (vsub (y_of i) (f_hat_of i)).

(** [eps_hat_i = y_i − f_hat_i − Z_i · b_hat_i] *)
Definition spec_eps_hat (i : label) : vector :=
  vsub (vsub (y_of i) (f_hat_of i)) (mv_dot (Z_of i) (spec_b_hat i)).

(** [eps_hat_i^T·eps_hat_i + sigma2_hat·(n_i − sigma2_hat·trace(V_hat_inv_i))] *)
Definition spec_sigma2_term (i : label) : scalar :=
  fadd (vdot (spec_eps_hat i) (spec_eps_hat i))
       (fmul sigma2_hat
             (fsub (of_int (Z.of_nat (n_of i)))
                   (fmul sigma2_hat (np_trace (spec_V_hat_inv i))))).

(** [outer(b_hat_i, b_hat_i) + (D_hat − D_hat·Z_i^T·V_hat_inv_i·Z_i·D_hat)] *)
Definition spec_D_term (i : label) : matrix :=
  madd (np_outer (spec_b_hat i) (spec_b_hat i))
       (msub D_hat
             (mm_dot (mm_dot (mm_dot (mm_dot D_hat (transpose (Z_of i)))
                                     (spec_V_hat_inv i))
                             (Z_of i))
                     D_hat)).

(** the two accumulators after a pass over [ids] *)
Definition spec_sigma2_sum (ids : list label) : scalar :=
  fold_left (λ acc i, fadd acc (spec_sigma2_term i)) ids (of_int 0).
Definition spec_D_sum (ids : list label) : accum :=
  fold_left (λ acc i, accum_iadd acc (spec_D_term i)) ids Int0.

(** [sigma2_hat = sigma2_sum / n_obs] and [D_hat = D_sum / n_clusters],
    the division by a count being the product with its reciprocal. *)
Definition spec_sigma2_next (ids : list label) (n_obs : nat) : scalar :=
  fmul (fdiv (of_int 1) (of_int (Z.of_nat n_obs))) (spec_sigma2_sum ids).
Definition spec_D_next (ids : list label) (n_clusters : nat) : matrix :=
  accum_scale (fdiv (of_int 1) (of_int (Z.of_nat n_clusters))) (spec_D_sum ids).

(** the coefficient table after a pass over [ids] *)
Definition spec_b_table (ids : list label) (df : DataFrame label) : DataFrame label :=
  fold_left (λ df i, loc_set df i (spec_b_hat i)) ids df.
End m_step.

(** The summand of cluster [i] in the generalized log-likelihood, with
    [R_i = sigma2_hat·I_i] and the log-determinants read from the
    sign/log-magnitude pair. *)
Definition spec_gll_term (f_hat : vector) (df : DataFrame label)
    (sigma2_hat : scalar) (D_hat : matrix) (i : label) : scalar :=
  let R_i := smul sigma2_hat (I_of i) in
  let resid := vsub (vsub (y_of i) (f_hat_of f_hat i)) (mv_dot (Z_of i) (b_of df i)) in
  fadd (fadd (fadd (vdot (vm_dot resid (pinv R_i)) resid)
                   (vdot (vm_dot (b_of df i) (pinv D_hat)) (b_of df i)))
             (slogdet D_hat).2)
       (slogdet R_i).2.

Definition spec_gll (ids : list label) (f_hat : vector) (df : DataFrame label)
    (sigma2_hat : scalar) (D_hat : matrix) : scalar :=
  fold_left (λ gll i, fadd gll (spec_gll_term f_hat df sigma2_hat D_hat i)) ids (of_int 0).

(** The stopping rule: the new [(stop_flag, iter_begun)] from the GLL of
    this iteration and the GLL history before it. *)
Definition next_flags (thr : option scalar) (stop_flag iter_begun : bool)
    (gll : scalar) (history : list scalar) : bool * bool :=
  match thr with
  | None => (stop_flag, iter_begun)
  | Some threshold =>
      if negb iter_begun then (stop_flag, true)
      else
        let prev := default gll (last history) in
        if flt (fabs (fdiv (fsub gll prev) prev)) threshold then (true, iter_begun)
        else (stop_flag, iter_begun)
  end.

(** One EM iteration as a function on (locals, world). *)
Definition em_next (sw : locals * world) : locals * world :=
  let st := sw.1 in
  let w := sw.2 in
  let ids := index (value_counts clusters) in
  let df := heap w !!! b_hat_df st in
  let rf' := rf_fit (rng w) (n_estimators (self w)) X (spec_y_star ids df) in
  let f_hat := oob_prediction_ rf' in
  let sigma2' := spec_sigma2_next f_hat (sigma2_hat st) (D_hat st) ids (length y) in
  let D' := spec_D_next f_hat (sigma2_hat st) (D_hat st) ids (nunique clusters) in
  let df' := spec_b_table f_hat (sigma2_hat st) (D_hat st) ids df in
  let gll := spec_gll ids f_hat df' sigma2' D' in
  let flags := next_flags (gll_early_stop_threshold (self w)) (stop_flag st)
                          (iter_begun st) gll (gll_history (self w)) in
  ({| iteration := iteration st + 1; b_hat_df := b_hat_df st;
      sigma2_hat := sigma2'; D_hat := D';
      stop_flag := flags.1; iter_begun := flags.2; rf := Some rf' |},
   {| self := append_gll gll (append_history (length (heap w)) sigma2' D' (self w));
      heap := <[b_hat_df st := df']> (heap w) ++ [df'];
      rng := S (rng w) |}).

(** The while loop as iteration of [em_next]. *)
Fixpoint em_iter (budget : nat) (sw : locals * world) : locals * world :=
  match budget with
  | O => sw
  | S budget' => if stop_flag sw.1 then sw else em_iter budget' (em_next sw)
  end.

(** The number of EM iterations a call of [fit] executes: the final value
    of the loop counter. *)
Definition iterations_run (w : world) : BinNums.Z :=
  match fit_em X Z clusters y w with
  | (Ok r, _) => iteration r.2
  | (Raise _, _) => 0
  end.
End closed_form.

(** ** Predicates used to state and prove the properties *)
Section predicates.
Context `{Regressor} {label : Type} `{Countable label}.
Local Abbreviation M := (@M _ _ label).
Local Abbreviation world := (@world _ _ label).
Local Abbreviation caches := (@caches _ label _ _).

(** A method body that leaves the world as it found it. *)
Definition readonly {A} (m : M A) : Prop := ∀ w, (m w).2 = w.

(** A method body whose outcome does not depend on [min_iterations] and
    which leaves [min_iterations] alone. *)
Definition min_iter_blind {A} (m : M A) : Prop :=
  ∀ v w, m (set_self (with_min_iterations v) w)
         = ((m w).1, set_self (with_min_iterations v) (m w).2).

Variables (X Z : matrix) (clusters : list label) (y : vector).

(** The dicts hold the slices of the inputs for cluster [i]. *)
Definition cache_entry (ctx : caches) (i : label) : Prop :=
  indices_by_cluster ctx !! i = Some (eq_mask clusters i) ∧
  Z_by_cluster ctx !! i = Some (Z_of Z clusters i) ∧
  y_by_cluster ctx !! i = Some (y_of clusters y i) ∧
  n_by_cluster ctx !! i = Some (n_of clusters i) ∧
  I_by_cluster ctx !! i = Some (I_of clusters i).

(** ... for every cluster of [ids] *)
Definition caches_ok (ctx : caches) (ids : list label) : Prop :=
  ∀ i, i ∈ ids → cache_entry ctx i.

(** The dicts as the loop of lines 100-111 leaves them. *)
Definition spec_caches (ids : list label) : caches :=
  fold_left (λ c i,
    {| indices_by_cluster := <[i := eq_mask clusters i]> (indices_by_cluster c);
       Z_by_cluster := <[i := Z_of Z clusters i]> (Z_by_cluster c);
       y_by_cluster := <[i := y_of clusters y i]> (y_by_cluster c);
       n_by_cluster := <[i := n_of clusters i]> (n_by_cluster c);
       I_by_cluster := <[i := I_of clusters i]> (I_by_cluster c) |}) ids empty_caches.

(** What holds of the locals and the world at every test of the while
    loop: [b_hat_df] is a frame on the heap, indexed by the clusters, and a
    GLL has been recorded once [iter_begun] is set. *)
Definition fit_inv (sw : locals * world) : Prop :=
  (b_hat_df sw.1 < length (heap sw.2))%nat ∧
  index (heap sw.2 !!! b_hat_df sw.1) = index (value_counts clusters) ∧
  (iter_begun sw.1 = true → gll_history (self sw.2) ≠ []).

(** The locals and the world when the while loop is first reached
    (lines 113-127). *)
Definition fit_start (w : world) : locals * world :=
  let l := length (heap w) in
  let q := shape1 Z in
  ({| iteration := 0; b_hat_df := l; sigma2_hat := of_int 1; D_hat := np_eye q;
      stop_flag := false; iter_begun := false; rf := None |},
   {| self := append_history l (of_int 1) (np_eye q) (self w);
      heap := heap w ++ [zeros_frame (index (value_counts clusters)) q];
      rng := rng w |}).

(** The last three assignments of [fit] (lines 260-262) on the locals and
    the world the while loop ends in. *)
Definition fit_end (sw : locals * world) : result unit * world :=
  let w1 := set_self (with_cluster_counts (Some (value_counts clusters))) sw.2 in
  match rf sw.1 with
  | None => (Raise UnboundLocalError, w1)
  | Some f =>
      (Ok tt, set_self (with_trained_b (Some (b_hat_df sw.1)))
                (set_self (with_trained_rf (Some f)) w1))
  end.

(** [X], [Z], [clusters] and [y] have the same number of rows. *)
Definition same_rows : Prop :=
  length Z = length X ∧ length y = length X ∧ length clusters = length X.
End predicates.

(** ** Further predicates: what a method body leaves alone, and when two
    runs of the while loop are in step *)
Section more_predicates.
Context `{Regressor} {label : Type} `{Countable label}.
Local Abbreviation M := (@M _ _ label).
Local Abbreviation world := (@world _ _ label).

(** A method body that, whatever its outcome, leaves the observation [f] of
    the world as it found it. *)
Definition keeps {A B} (f : world → B) (m : M A) : Prop := ∀ w, f (m w).2 = f w.

(** Two states of the while loop, possibly on different model objects and
    heaps, that agree on everything an iteration reads: the locals other
    than the address of the coefficient table, the content of that table,
    the random stream, [n_estimators], the threshold, and, once a GLL has
    been recorded, the last GLL. *)
Definition in_step (sw1 sw2 : locals * world) : Prop :=
  iteration sw1.1 = iteration sw2.1 ∧
  sigma2_hat sw1.1 = sigma2_hat sw2.1 ∧
  D_hat sw1.1 = D_hat sw2.1 ∧
  stop_flag sw1.1 = stop_flag sw2.1 ∧
  iter_begun sw1.1 = iter_begun sw2.1 ∧
  rf sw1.1 = rf sw2.1 ∧
  rng sw1.2 = rng sw2.2 ∧
  n_estimators (self sw1.2) = n_estimators (self sw2.2) ∧
  gll_early_stop_threshold (self sw1.2) = gll_early_stop_threshold (self sw2.2) ∧
  heap sw1.2 !!! b_hat_df sw1.1 = heap sw2.2 !!! b_hat_df sw2.1 ∧
  (iter_begun sw1.1 = true →
   last (gll_history (self sw1.2)) = last (gll_history (self sw2.2))).
End more_predicates.

(** ** A symbolic model of the numeric interface

    Every arithmetic operation builds the expression it stands for, so a run
    of the program on concrete data shows which expression each stored value
    is.  The comparison is a parameter of the model. *)
Module Sym.
Local Unset Elimination Schemes.
Inductive term :=
  | Lit (z : Z)
  | Add (a b : term)
  | Sub (a b : term)
  | Mul (a b : term)
  | Div (a b : term)
  | Abs (a : term)
  | PinvAt (m : list (list term)) (i j : nat)
  | SignDet (m : list (list term))
  | LogAbsDet (m : list (list term))
  | Oob (seed row : nat)
  | Tree (seed : nat) (x : list term).

Definition pinv_entries (m : list (list term)) : list (list term) :=
  (λ i, (λ j, PinvAt m i j) <$> seq 0 (length m)) <$> seq 0 (length (hd [] m)).

Definition float64 (lt : term → term → bool) : Float64 :=
  {| scalar := term; of_int := Lit; fadd := Add; fsub := Sub; fmul := Mul;
     fdiv := Div; fabs := Abs; flt := lt; pinv := pinv_entries;
     slogdet := λ m, (SignDet m, LogAbsDet m) |}.

(** A forest remembers the stream position it was grown at and the number
    of training rows. *)
Definition regressor (lt : term → term → bool) : @Regressor (float64 lt) :=
  {| forest := nat * nat;
     rf_fit := λ seed _ X _, (seed, length X);
     oob_prediction_ := λ f, Oob f.1 <$> seq 0 f.2;
     rf_predict := λ f X, Tree f.1 <$> X |}.

Definition always : term → term → bool := λ _ _, true.

(** A fresh model object in an empty heap. *)
Definition fresh (lt : term → term → bool) (min_it : Z) (thr : option term) (max_it : Z)
    : @world (float64 lt) (regressor lt) nat :=
  {| self := @MERF_init (float64 lt) (regressor lt) nat 300 min_it thr max_it;
     heap := []; rng := 0 |}.

(** Two clusters, three observations, one random-effect column. *)
Definition X3 : list (list term) := [[Lit 1]; [Lit 2]; [Lit 3]].
Definition Z3 : list (list term) := [[Lit 1]; [Lit 1]; [Lit 1]].
Definition clusters3 : list nat := [7; 7; 9]%nat.
Definition y3 : list term := [Lit 4; Lit 5; Lit 6].
End Sym.

(** * Properties *)

(** ** Lists, masks and frames *)
Section list_facts.
Context `{Float64} {label : Type} `{Countable label}.

Lemma index_value_counts_perm (clusters : list label) :
  index (value_counts clusters) ≡ₚ remove_dups clusters.
Proof.
  unfold index, value_counts.
  rewrite merge_sort_Permutation, <- list_fmap_compose.
  erewrite list_fmap_ext; [by rewrite list_fmap_id|done].
Qed.

Lemma NoDup_index_value_counts (clusters : list label) :
  NoDup (index (value_counts clusters)).
Proof. rewrite index_value_counts_perm. apply NoDup_remove_dups. Qed.

Lemma elem_of_index_value_counts (clusters : list label) i :
  i ∈ index (value_counts clusters) ↔ i ∈ clusters.
Proof. rewrite index_value_counts_perm. apply elem_of_remove_dups. Qed.

Lemma length_index_value_counts (clusters : list label) :
  length (index (value_counts clusters)) = nunique clusters.
Proof. unfold nunique. by rewrite index_value_counts_perm. Qed.

Lemma nunique_pos (clusters : list label) : clusters ≠ [] → nunique clusters ≠ 0%nat.
Proof.
  intros Hne Hz. destruct clusters as [|c cs]; [done|].
  assert (c ∈ remove_dups (c :: cs)) as Hin by (apply elem_of_remove_dups; left).
  unfold nunique in Hz. apply nil_length_inv in Hz. rewrite Hz in Hin.
  by apply not_elem_of_nil in Hin.
Qed.

Lemma loc_get_elem_of {V} (s : list (label * V)) k v :
  NoDup (index s) → (k, v) ∈ s → loc_get s k = Some v.
Proof.
  induction s as [|[k' v'] s IH]; intros Hnd Hin; [by apply not_elem_of_nil in Hin|].
  unfold index in Hnd. rewrite fmap_cons in Hnd. apply NoDup_cons in Hnd as [Hnotin Hnd].
  simpl. apply elem_of_cons in Hin as [Heq|Hin].
  - inversion Heq; subst. by rewrite decide_True.
  - destruct (decide (k' = k)) as [->|Hne].
    + exfalso. apply Hnotin. simpl. apply list_elem_of_fmap. by exists (k, v).
    + by apply IH.
Qed.

Lemma loc_get_value_counts (clusters : list label) i :
  i ∈ index (value_counts clusters) →
  loc_get (value_counts clusters) i = Some (count_of clusters i).
Proof.
  intros Hin. apply loc_get_elem_of; [apply NoDup_index_value_counts|].
  unfold value_counts. rewrite merge_sort_Permutation.
  apply list_elem_of_fmap. exists i. split; [done|].
  apply elem_of_remove_dups. by apply elem_of_index_value_counts.
Qed.

Lemma loc_get_is_Some {V} (s : list (label * V)) k :
  k ∈ index s → is_Some (loc_get s k).
Proof.
  induction s as [|[k' v'] s IH]; simpl; intros Hin; [by apply not_elem_of_nil in Hin|].
  destruct (decide (k' = k)); [by eexists|].
  apply IH. apply elem_of_cons in Hin as [?|?]; [by subst|done].
Qed.

Lemma index_loc_set (df : DataFrame label) k row :
  k ∈ index df → index (loc_set df k row) = index df.
Proof.
  intros Hin. unfold loc_set, has_key. rewrite bool_decide_eq_true_2 by done.
  unfold index. rewrite <- list_fmap_compose. apply list_fmap_ext.
  intros ? [k' v'] _. simpl. by destruct (decide (k' = k)).
Qed.

Lemma loc_get_loc_set (df : DataFrame label) k row k' :
  k ∈ index df →
  loc_get (loc_set df k row) k' = if decide (k = k') then Some row else loc_get df k'.
Proof.
  intros Hin. unfold loc_set, has_key. rewrite bool_decide_eq_true_2 by done.
  destruct (decide (k = k')) as [<-|Hne].
  - induction df as [|[k1 v1] df IH]; [by apply not_elem_of_nil in Hin|].
    simpl. destruct (decide (k1 = k)) as [->|Hne1]; simpl.
    + by rewrite decide_True.
    + rewrite decide_False by done. apply IH.
      unfold index in Hin. rewrite fmap_cons in Hin.
      apply elem_of_cons in Hin as [?|?]; [by subst|done].
  - clear Hin. induction df as [|[k1 v1] df IH]; [done|].
    simpl. destruct (decide (k1 = k)) as [->|Hne1]; simpl.
    + rewrite !decide_False by done. apply IH.
    + destruct (decide (k1 = k')); [done|apply IH].
Qed.
End list_facts.

(** ** Running method bodies *)
Section monad_facts.
Context `{Regressor} {label : Type} `{Countable label}.
Local Abbreviation M := (@M _ _ label).
Local Abbreviation world := (@world _ _ label).

Lemma bind_Ok {A B} (m : M A) (k : A → M B) w a w1 :
  m w = (Ok a, w1) → bind m k w = k a w1.
Proof. intros Hm. unfold bind. by rewrite Hm. Qed.

Lemma bind_Raise {A B} (m : M A) (k : A → M B) w e w1 :
  m w = (Raise e, w1) → bind m k w = (Raise e, w1).
Proof. intros Hm. unfold bind. by rewrite Hm. Qed.

Lemma bind_Ok_inv {A B} (m : M A) (k : A → M B) w b w2 :
  bind m k w = (Ok b, w2) → ∃ a w1, m w = (Ok a, w1) ∧ k a w1 = (Ok b, w2).
Proof.
  unfold bind. destruct (m w) as [[a|e] w1]; intros Hk; [by eauto|discriminate].
Qed.

(** A loop whose body, on the elements it meets, returns [f s a] and leaves
    the world alone is a left fold. *)
Lemma for_fold_pure {A S} (l : list A) (s : S) (body : S → A → M S) (f : S → A → S) w :
  (∀ a s, a ∈ l → body s a w = (Ok (f s a), w)) →
  for_fold l s body w = (Ok (fold_left f l s), w).
Proof.
  revert s. induction l as [|a l IH]; intros s Hbody; [done|].
  simpl. erewrite bind_Ok by (apply Hbody; left).
  apply IH. intros a' s' Hin. apply Hbody. by right.
Qed.

(** The same for a body that changes the world by [g a], under an
    invariant of the world. *)
Lemma for_fold_run {A S} (l : list A) (s : S) (body : S → A → M S)
    (f : S → A → S) (g : A → world → world) (I : world → Prop) w :
  (∀ a s w, a ∈ l → I w → body s a w = (Ok (f s a), g a w) ∧ I (g a w)) →
  I w →
  for_fold l s body w = (Ok (fold_left f l s), fold_left (λ w a, g a w) l w).
Proof.
  revert s w. induction l as [|a l IH]; intros s w Hbody HI; [done|].
  simpl. destruct (Hbody a s w) as [Hrun HI']; [by left|done|].
  erewrite bind_Ok by exact Hrun.
  apply IH; [|done]. intros a' s' w' Hin. apply Hbody. by right.
Qed.

Lemma readonly_ret {A} (a : A) : readonly (ret a : M A).
Proof. done. Qed.

Lemma readonly_raise {A} e : readonly (raise e : M A).
Proof. done. Qed.

Lemma readonly_gets {A} (f : world → A) : readonly (gets f).
Proof. done. Qed.

Lemma readonly_bind {A B} (m : M A) (k : A → M B) :
  readonly m → (∀ a, readonly (k a)) → readonly (bind m k).
Proof.
  intros Hm Hk w. unfold bind. specialize (Hm w).
  destruct (m w) as [[a|e] w1]; simpl in *; subst; [apply Hk|done].
Qed.

Lemma readonly_for_fold {A S} (l : list A) (s : S) (body : S → A → M S) :
  (∀ s a, readonly (body s a)) → readonly (for_fold l s body).
Proof.
  intros Hbody. revert s. induction l as [|a l IH]; intros s; [done|].
  simpl. apply readonly_bind; [apply Hbody|apply IH].
Qed.

Lemma readonly_dict_get {V} (d : gmap label V) k : readonly (dict_get d k).
Proof. unfold dict_get. by destruct (d !! k). Qed.

Lemma readonly_loc_getM {V} (s : list (label * V)) k : readonly (loc_getM s k).
Proof. unfold loc_getM. by destruct (loc_get s k). Qed.

Lemma readonly_attr_of {V} (o : option V) : readonly (attr_of o : M V).
Proof. by destruct o. Qed.

Lemma readonly_deref l : readonly (deref (label:=label) l).
Proof. done. Qed.
End monad_facts.

Create HintDb readonly.
#[export] Hint Resolve readonly_ret readonly_raise readonly_gets readonly_dict_get
  readonly_loc_getM readonly_attr_of readonly_deref : readonly.
#[export] Hint Extern 2 (readonly (bind _ _)) =>
  apply readonly_bind; [|intros ?] : readonly.
#[export] Hint Extern 2 (readonly (for_fold _ _ _)) =>
  apply readonly_for_fold; intros ? ? : readonly.
#[export] Hint Extern 3 (readonly (match ?x with _ => _ end)) => destruct x : readonly.

Section predict_facts.
Context `{Regressor} {label : Type} `{Countable label}.

End predict_facts.

(** ** The loops of [fit] against their closed forms *)
Section fit_facts.
Context `{Regressor} {label : Type} `{Countable label}.
Local Abbreviation M := (@M _ _ label).
Local Abbreviation world := (@world _ _ label).
Local Abbreviation caches := (@caches _ label _ _).

Variables (X Z : matrix) (clusters : list label) (y : vector).
Local Abbreviation idx := (index (value_counts clusters)).

Lemma cache_entry_step (c : caches) (a i : label) :
  i = a ∨ cache_entry Z clusters y c i →
  cache_entry Z clusters y
    {| indices_by_cluster := <[a := eq_mask clusters a]> (indices_by_cluster c);
       Z_by_cluster := <[a := Z_of Z clusters a]> (Z_by_cluster c);
       y_by_cluster := <[a := y_of clusters y a]> (y_by_cluster c);
       n_by_cluster := <[a := n_of clusters a]> (n_by_cluster c);
       I_by_cluster := <[a := I_of clusters a]> (I_by_cluster c) |} i.
Proof.
  unfold cache_entry. simpl. destruct (decide (i = a)) as [->|Hne].
  - intros _. by rewrite !lookup_insert_eq.
  - intros [?|Hc]; [done|]. by rewrite !lookup_insert_ne.
Qed.

Lemma spec_caches_ok (ids : list label) : caches_ok Z clusters y (spec_caches Z clusters y ids) ids.
Proof.
  unfold caches_ok, spec_caches.
  cut (∀ c0 i, i ∈ ids ∨ cache_entry Z clusters y c0 i →
         cache_entry Z clusters y
           (fold_left (λ c i,
              {| indices_by_cluster := <[i := eq_mask clusters i]> (indices_by_cluster c);
                 Z_by_cluster := <[i := Z_of Z clusters i]> (Z_by_cluster c);
                 y_by_cluster := <[i := y_of clusters y i]> (y_by_cluster c);
                 n_by_cluster := <[i := n_of clusters i]> (n_by_cluster c);
                 I_by_cluster := <[i := I_of clusters i]> (I_by_cluster c) |}) ids c0) i).
  { intros Hcut i Hin. apply Hcut. by left. }
  induction ids as [|a ids IH]; intros c0 i [Hin|Hc]; simpl.
  - by apply not_elem_of_nil in Hin.
  - done.
  - apply IH. apply elem_of_cons in Hin as [->|Hin]; [right|by left].
    apply cache_entry_step. by left.
  - apply IH. right. apply cache_entry_step. by right.
Qed.

Lemma build_caches_run w :
  build_caches (value_counts clusters) Z clusters y w
  = (Ok (spec_caches Z clusters y idx), w).
Proof.
  unfold build_caches, spec_caches. apply for_fold_pure.
  intros a c Hin. unfold bind, loc_getM.
  by rewrite (loc_get_value_counts clusters a Hin).
Qed.

Lemma b_of_loc_get (df : DataFrame label) i :
  i ∈ index df → loc_get df i = Some (b_of df i).
Proof.
  intros Hin. unfold b_of. by destruct (loc_get_is_Some df i Hin) as [v ->].
Qed.

Lemma e_step_run (ctx : caches) l w :
  caches_ok Z clusters y ctx idx →
  index (heap w !!! l) = idx →
  e_step y idx ctx l w = (Ok (spec_y_star Z clusters y idx (heap w !!! l)), w).
Proof.
  intros Hctx Hidx. unfold e_step, spec_y_star. apply for_fold_pure.
  intros a s Hin. destruct (Hctx a Hin) as (Hm & HZ & Hy & Hn & HI).
  unfold bind, dict_get, loc_getM, deref, gets, ret.
  assert (a ∈ index (heap w !!! l)) as Hdf by (by rewrite Hidx).
  rewrite Hy, HZ. cbv beta iota.
  rewrite (b_of_loc_get _ _ Hdf). cbv beta iota. by rewrite Hm.
Qed.

Lemma gll_loop_run (ctx : caches) f_hat l s D w :
  caches_ok Z clusters y ctx idx →
  index (heap w !!! l) = idx →
  gll_loop idx ctx f_hat l s D w
  = (Ok (spec_gll Z clusters y idx f_hat (heap w !!! l) s D), w).
Proof.
  intros Hctx Hidx. unfold gll_loop, spec_gll. apply for_fold_pure.
  intros a g Hin. destruct (Hctx a Hin) as (Hm & HZ & Hy & Hn & HI).
  unfold bind, dict_get, loc_getM, deref, gets, ret.
  assert (a ∈ index (heap w !!! l)) as Hdf by (by rewrite Hidx).
  rewrite Hm, Hy, HZ, HI. cbv beta iota.
  by rewrite (b_of_loc_get _ _ Hdf).
Qed.

Lemma set_heap_id (w : world) : set_heap (heap w) w = w.
Proof. by destruct w. Qed.

Lemma fold_frame_loc_set (b : label → vector) l (ids : list label) (w : world) :
  (l < length (heap w))%nat →
  fold_left (λ w a, set_heap (<[l := loc_set (heap w !!! l) a (b a)]> (heap w)) w) ids w
  = set_heap (<[l := fold_left (λ df i, loc_set df i (b i)) ids (heap w !!! l)]> (heap w)) w.
Proof.
  revert w. induction ids as [|a ids IH]; intros w Hl; simpl.
  - rewrite list_insert_id; [apply eq_sym, set_heap_id|].
    by apply list_lookup_lookup_total_lt.
  - rewrite IH by (simpl; by rewrite length_insert).
    simpl. rewrite list_lookup_total_insert_eq by done.
    by rewrite list_insert_insert_eq.
Qed.

Lemma fold_sums (ts : label → scalar) (tD : label → matrix) (ids : list label) s0 a0 :
  fold_left (λ (sums : scalar * accum) i, (fadd sums.1 (ts i), accum_iadd sums.2 (tD i)))
            ids (s0, a0)
  = (fold_left (λ acc i, fadd acc (ts i)) ids s0,
     fold_left (λ acc i, accum_iadd acc (tD i)) ids a0).
Proof. revert s0 a0. induction ids as [|a ids IH]; intros; simpl; [done|apply IH]. Qed.

(** After a pass over at least one cluster [D_hat_sum] is an array. *)
Lemma spec_D_sum_is_array f_hat s D (ids : list label) :
  ids ≠ [] → ∃ a, spec_D_sum Z clusters y f_hat s D ids = Arr a.
Proof.
  intros Hne. destruct ids as [|i ids]; [done|]. clear Hne. unfold spec_D_sum. simpl.
  generalize (sadd (of_int 0) (spec_D_term Z clusters y f_hat s D i)).
  induction ids as [|j ids IH]; intros a; simpl; [by eexists|apply IH].
Qed.

Lemma py_truediv_pos (x : scalar) n w :
  n ≠ 0%nat → py_truediv (label:=label) x n w = (Ok (fdiv x (of_int (Z.of_nat n))), w).
Proof. by destruct n. Qed.

Lemma m_step_run (ctx : caches) f_hat l s D w :
  caches_ok Z clusters y ctx idx →
  (l < length (heap w))%nat →
  y ≠ [] → clusters ≠ [] →
  m_step idx (length y) (nunique clusters) ctx f_hat l s D w
  = (Ok (spec_sigma2_next Z clusters y f_hat s D idx (length y),
         spec_D_next Z clusters y f_hat s D idx (nunique clusters)),
     set_heap (<[l := spec_b_table Z clusters y f_hat s D idx (heap w !!! l)]> (heap w)) w).
Proof.
  intros Hctx Hl Hy Hc. unfold m_step.
  erewrite bind_Ok; cycle 1.
  { apply (for_fold_run _ _ _
             (λ sums i, (fadd sums.1 (spec_sigma2_term Z clusters y f_hat s D i),
                         accum_iadd sums.2 (spec_D_term Z clusters y f_hat s D i)))
             (λ i w, set_heap (<[l := loc_set (heap w !!! l) i
                                        (spec_b_hat Z clusters y f_hat s D i)]> (heap w)) w)
             (λ w, l < length (heap w))%nat); [|done].
    intros a sums w' Hin Hl'. destruct (Hctx a Hin) as (Hm & HZ & Hy' & Hn & HI).
    split; [|simpl; by rewrite length_insert].
    unfold bind, dict_get, ret. by rewrite Hm, Hy', HZ, Hn, HI. }
  rewrite fold_sums, fold_frame_loc_set by done.
  erewrite bind_Ok by (apply py_truediv_pos; by destruct y).
  erewrite bind_Ok by (apply py_truediv_pos; by apply nunique_pos).
  done.
Qed.

Lemma py_index_m2_snoc {V} (hist : list V) (g : V) (w : world) :
  hist ≠ [] →
  py_index_m2 (label:=label) (hist ++ [g]) w = (Ok (default g (last hist)), w).
Proof.
  intros Hne. destruct hist as [|p hist _] using rev_ind; [done|].
  unfold py_index_m2. rewrite last_snoc, !length_app. simpl.
  rewrite decide_True by lia.
  replace (length hist + 1 + 1 - 2)%nat with (length hist) by lia.
  rewrite lookup_app_l by (rewrite length_app; simpl; lia).
  by rewrite list_lookup_middle.
Qed.

Lemma stop_check_run g stop begun hist (w : world) :
  gll_history (self w) = hist ++ [g] →
  (begun = true → hist ≠ []) →
  stop_check g stop begun w
  = (Ok (next_flags (gll_early_stop_threshold (self w)) stop begun g hist), w).
Proof.
  intros Hh Hne. unfold stop_check, next_flags, bind at 1, gets at 1.
  destruct (gll_early_stop_threshold (self w)) as [thr|]; [|done].
  destruct begun; simpl; [|done].
  erewrite bind_Ok; cycle 1.
  { erewrite bind_Ok by reflexivity. simpl. rewrite Hh. apply py_index_m2_snoc; auto. }
  simpl. by destruct (flt _ thr).
Qed.

Lemma index_spec_b_table f_hat s D (ids : list label) (df : DataFrame label) :
  (∀ i, i ∈ ids → i ∈ index df) →
  index (spec_b_table Z clusters y f_hat s D ids df) = index df.
Proof.
  unfold spec_b_table. revert df. induction ids as [|a ids IH]; intros df Hin; [done|].
  simpl. rewrite IH.
  - apply index_loc_set, Hin. by left.
  - intros i Hi. rewrite index_loc_set by (apply Hin; by left). apply Hin. by right.
Qed.

Lemma em_body_run (ctx : caches) st w :
  caches_ok Z clusters y ctx idx →
  y ≠ [] → clusters ≠ [] →
  fit_inv clusters (st, w) →
  em_body X y idx (length y) (nunique clusters) ctx st w
  = (Ok (em_next X Z clusters y (st, w)).1, (em_next X Z clusters y (st, w)).2).
Proof.
  intros Hctx Hy Hc (Hl & Hidx & Hbegun). simpl in Hl, Hidx, Hbegun.
  unfold em_body.
  erewrite bind_Ok by (by apply e_step_run).
  erewrite bind_Ok by reflexivity.
  erewrite bind_Ok by reflexivity.
  erewrite bind_Ok by reflexivity.
  erewrite bind_Ok by (by apply m_step_run).
  erewrite bind_Ok by reflexivity.
  erewrite bind_Ok by reflexivity.
  simpl.
  assert ((<[b_hat_df st := spec_b_table Z clusters y
               (oob_prediction_ (rf_fit (rng w) (n_estimators (self w)) X
                  (spec_y_star Z clusters y idx (heap w !!! b_hat_df st))))
               (sigma2_hat st) (D_hat st) idx (heap w !!! b_hat_df st)]> (heap w)
           ++ [<[b_hat_df st := spec_b_table Z clusters y
               (oob_prediction_ (rf_fit (rng w) (n_estimators (self w)) X
                  (spec_y_star Z clusters y idx (heap w !!! b_hat_df st))))
               (sigma2_hat st) (D_hat st) idx (heap w !!! b_hat_df st)]> (heap w)
               !!! b_hat_df st]) !!! b_hat_df st
          = spec_b_table Z clusters y
               (oob_prediction_ (rf_fit (rng w) (n_estimators (self w)) X
                  (spec_y_star Z clusters y idx (heap w !!! b_hat_df st))))
               (sigma2_hat st) (D_hat st) idx (heap w !!! b_hat_df st)) as Hdf.
  { rewrite lookup_total_app_l by (by rewrite length_insert).
    by rewrite list_lookup_total_insert_eq. }
  erewrite bind_Ok; cycle 1.
  { apply gll_loop_run; [done|]. simpl. rewrite Hdf.
    rewrite index_spec_b_table; [done|]. intros i Hi. by rewrite Hidx. }
  erewrite bind_Ok by reflexivity.
  erewrite bind_Ok; cycle 1.
  { apply (stop_check_run _ _ _ (gll_history (self w))); [done|exact Hbegun]. }
  simpl. rewrite Hdf.
  rewrite list_lookup_total_insert_eq, length_insert by done.
  done.
Qed.

Lemma fit_inv_next sw : fit_inv clusters sw → fit_inv clusters (em_next X Z clusters y sw).
Proof.
  destruct sw as [st w]. intros (Hl & Hidx & Hbegun). simpl in *.
  unfold fit_inv. simpl. split_and!.
  - rewrite length_app, length_insert. lia.
  - rewrite lookup_total_app_l by (by rewrite length_insert).
    rewrite list_lookup_total_insert_eq by done.
    rewrite index_spec_b_table; [done|]. intros i Hi. by rewrite Hidx.
  - intros _. by destruct (gll_history (self w)).
Qed.

Lemma fit_inv_start (w : world) : fit_inv clusters (fit_start Z clusters w).
Proof.
  unfold fit_inv, fit_start. simpl. split_and!.
  - rewrite length_app. simpl. lia.
  - rewrite lookup_total_app_r by done. rewrite Nat.sub_diag. simpl.
    unfold zeros_frame, index. rewrite <- list_fmap_compose.
    erewrite list_fmap_ext; [by rewrite list_fmap_id|done].
  - done.
Qed.

Lemma fit_inv_iter budget sw :
  fit_inv clusters sw → fit_inv clusters (em_iter X Z clusters y budget sw).
Proof.
  revert sw. induction budget as [|b IH]; intros sw Hinv; simpl; [done|].
  destruct (stop_flag sw.1); [done|]. by apply IH, fit_inv_next.
Qed.

Lemma em_loop_run (ctx : caches) budget st w :
  caches_ok Z clusters y ctx idx →
  y ≠ [] → clusters ≠ [] →
  fit_inv clusters (st, w) →
  em_loop X y idx (length y) (nunique clusters) ctx budget st w
  = (Ok (em_iter X Z clusters y budget (st, w)).1, (em_iter X Z clusters y budget (st, w)).2).
Proof.
  intros Hctx Hy Hc. revert st w. induction budget as [|b IH]; intros st w Hinv; simpl; [done|].
  destruct (stop_flag st); [done|].
  erewrite bind_Ok by (by apply em_body_run).
  rewrite IH by (rewrite <- surjective_pairing; by apply fit_inv_next).
  by rewrite <- surjective_pairing.
Qed.

Lemma same_rows_dec : Decision (same_rows X Z clusters y).
Proof. unfold same_rows. apply _. Defined.

Lemma fit_em_assert (w : world) :
  ¬ same_rows X Z clusters y → fit_em X Z clusters y w = (Raise AssertionError, w).
Proof.
  unfold same_rows, fit_em, bind at 1, py_assert at 1. intros Hn.
  destruct (decide (length Z = length X)) as [HZ|HZ];
    [rewrite bool_decide_eq_true_2 by done|by rewrite bool_decide_eq_false_2 by done].
  simpl. unfold bind at 1, py_assert at 1.
  destruct (decide (length y = length X)) as [Hy|Hy];
    [rewrite bool_decide_eq_true_2 by done|by rewrite bool_decide_eq_false_2 by done].
  simpl. unfold bind at 1, py_assert at 1.
  destruct (decide (length clusters = length X)) as [Hc|Hc];
    [tauto|by rewrite bool_decide_eq_false_2 by done].
Qed.

Lemma fit_em_prefix (w : world) (budget : nat) :
  same_rows X Z clusters y →
  budget = Z.to_nat (max_iterations (self w)) →
  fit_em X Z clusters y w
  = match em_loop X y idx (length y) (nunique clusters) (spec_caches Z clusters y idx) budget
            (fit_start Z clusters w).1 (fit_start Z clusters w).2 with
    | (Ok st, w') => (Ok (value_counts clusters, st), w')
    | (Raise e, w') => (Raise e, w')
    end.
Proof.
  intros (HZ & Hy & Hc) ->. unfold fit_em.
  unfold py_assert. rewrite !bool_decide_eq_true_2 by done.
  erewrite bind_Ok by reflexivity.
  erewrite bind_Ok by reflexivity.
  erewrite bind_Ok by reflexivity.
  erewrite bind_Ok by apply build_caches_run.
  erewrite bind_Ok by reflexivity.
  erewrite bind_Ok by reflexivity.
  erewrite bind_Ok by reflexivity.
  reflexivity.
Qed.

Lemma fit_em_run (w : world) :
  same_rows X Z clusters y → y ≠ [] →
  fit_em X Z clusters y w
  = (Ok (value_counts clusters,
         (em_iter X Z clusters y (Z.to_nat (max_iterations (self w)))
            (fit_start Z clusters w)).1),
     (em_iter X Z clusters y (Z.to_nat (max_iterations (self w))) (fit_start Z clusters w)).2).
Proof.
  intros Hrows Hy. rewrite (fit_em_prefix w _ Hrows eq_refl).
  rewrite em_loop_run; [done|apply spec_caches_ok|done| |].
  - destruct Hrows as (_ & Hy' & Hc). intros ->. destruct y; [done|].
    simpl in *. congruence.
  - rewrite <- surjective_pairing. apply fit_inv_start.
Qed.

Lemma fit_em_no_iteration (w : world) :
  same_rows X Z clusters y → (max_iterations (self w) ≤ 0)%Z →
  fit_em X Z clusters y w
  = (Ok (value_counts clusters, (fit_start Z clusters w).1), (fit_start Z clusters w).2).
Proof.
  intros Hrows Hmax. rewrite (fit_em_prefix w 0 Hrows); [done|]. lia.
Qed.

Lemma fit_store_run st (w : world) :
  fit_store (value_counts clusters) st w = fit_end clusters (st, w).
Proof. unfold fit_store, fit_end. simpl. by destruct (rf st). Qed.

Lemma fit_run (w : world) :
  same_rows X Z clusters y → y ≠ [] →
  fit X Z clusters y w
  = fit_end clusters
      (em_iter X Z clusters y (Z.to_nat (max_iterations (self w))) (fit_start Z clusters w)).
Proof.
  intros Hrows Hy. unfold fit. erewrite bind_Ok by (by apply fit_em_run).
  simpl. rewrite fit_store_run. by rewrite <- surjective_pairing.
Qed.

Lemma fit_no_iteration (w : world) :
  same_rows X Z clusters y → (max_iterations (self w) ≤ 0)%Z →
  fit X Z clusters y w
  = (Raise UnboundLocalError,
     set_self (with_cluster_counts (Some (value_counts clusters))) (fit_start Z clusters w).2).
Proof.
  intros Hrows Hmax. unfold fit. erewrite bind_Ok by (by apply fit_em_no_iteration).
  done.
Qed.

Lemma value_counts_nil : value_counts (@nil label) = [].
Proof. reflexivity. Qed.

Lemma fit_em_empty (w : world) :
  same_rows X Z clusters y → y = [] → (0 < max_iterations (self w))%Z →
  ∃ w', fit_em X Z clusters y w = (Raise ZeroDivisionError, w').
Proof.
  intros Hrows Hy Hmax.
  rewrite (fit_em_prefix w _ Hrows eq_refl).
  destruct Hrows as (_ & Hy' & Hc). rewrite Hy in Hy'. simpl in Hy'.
  assert (clusters = []) as Hcl by (apply nil_length_inv; congruence).
  destruct (Z.to_nat (max_iterations (self w))) as [|b] eqn:Hb; [lia|].
  rewrite Hy, Hcl, value_counts_nil. simpl. by eexists.
Qed.

(** A call of [fit] that returns has passed the asserts, on data that is
    not empty, and ends as the closed form says. *)
Lemma fit_Ok_inv (w w' : world) :
  fit X Z clusters y w = (Ok tt, w') →
  same_rows X Z clusters y ∧ y ≠ [] ∧ (0 < max_iterations (self w))%Z ∧
  fit_end clusters
    (em_iter X Z clusters y (Z.to_nat (max_iterations (self w))) (fit_start Z clusters w))
  = (Ok tt, w').
Proof.
  intros Hfit.
  destruct same_rows_dec as [Hrows|Hrows]; cycle 1.
  { unfold fit in Hfit. erewrite bind_Raise in Hfit by (by apply fit_em_assert). done. }
  destruct (decide (0 < max_iterations (self w))%Z) as [Hmax|Hmax]; cycle 1.
  { rewrite fit_no_iteration in Hfit by (done || lia). done. }
  destruct (decide (y = [])) as [Hy|Hy].
  { destruct (fit_em_empty w Hrows Hy Hmax) as [w1 Hem].
    unfold fit in Hfit. erewrite bind_Raise in Hfit by exact Hem. done. }
  by rewrite fit_run in Hfit.
Qed.

(** *** The iterated closed form *)

Lemma em_iter_ind (P : locals * world → locals * world → Prop) :
  (∀ sw, P sw sw) →
  (∀ sw sw', stop_flag sw.1 = false → P (em_next X Z clusters y sw) sw' → P sw sw') →
  ∀ budget sw, P sw (em_iter X Z clusters y budget sw).
Proof.
  intros Hrefl Hstep budget. induction budget as [|b IH]; intros sw; simpl; [done|].
  destruct (stop_flag sw.1) eqn:Hstop; [done|]. by apply Hstep.
Qed.

(** Histories and counters advance together, one entry per iteration. *)
Lemma em_iter_lengths budget sw :
  let sw' := em_iter X Z clusters y budget sw in
  ∃ k : nat,
    (k ≤ budget)%nat ∧
    iteration sw'.1 = (iteration sw.1 + Z.of_nat k)%Z ∧
    rng sw'.2 = (rng sw.2 + k)%nat ∧
    length (b_hat_history (self sw'.2)) = (length (b_hat_history (self sw.2)) + k)%nat ∧
    length (sigma2_hat_history (self sw'.2)) = (length (sigma2_hat_history (self sw.2)) + k)%nat ∧
    length (D_hat_history (self sw'.2)) = (length (D_hat_history (self sw.2)) + k)%nat ∧
    length (gll_history (self sw'.2)) = (length (gll_history (self sw.2)) + k)%nat.
Proof.
  revert sw. induction budget as [|b IH]; intros sw; simpl.
  { exists 0%nat. split_and!; lia. }
  destruct (stop_flag sw.1).
  { exists 0%nat. split_and!; lia. }
  destruct (IH (em_next X Z clusters y sw)) as (k & Hk & Hit & Hrng & Hb & Hs & HD & Hg).
  exists (S k). simpl in *. rewrite !length_app in *. simpl in *.
  split_and!; lia.
Qed.

(** What an iteration never touches. *)
Lemma em_iter_frame budget sw :
  let sw' := em_iter X Z clusters y budget sw in
  b_hat_df sw'.1 = b_hat_df sw.1 ∧
  n_estimators (self sw'.2) = n_estimators (self sw.2) ∧
  min_iterations (self sw'.2) = min_iterations (self sw.2) ∧
  gll_early_stop_threshold (self sw'.2) = gll_early_stop_threshold (self sw.2) ∧
  max_iterations (self sw'.2) = max_iterations (self sw.2) ∧
  cluster_counts (self sw'.2) = cluster_counts (self sw.2) ∧
  trained_rf (self sw'.2) = trained_rf (self sw.2) ∧
  trained_b (self sw'.2) = trained_b (self sw.2).
Proof.
  simpl. apply (em_iter_ind (λ sw sw',
    b_hat_df sw'.1 = b_hat_df sw.1 ∧
    n_estimators (self sw'.2) = n_estimators (self sw.2) ∧
    min_iterations (self sw'.2) = min_iterations (self sw.2) ∧
    gll_early_stop_threshold (self sw'.2) = gll_early_stop_threshold (self sw.2) ∧
    max_iterations (self sw'.2) = max_iterations (self sw.2) ∧
    cluster_counts (self sw'.2) = cluster_counts (self sw.2) ∧
    trained_rf (self sw'.2) = trained_rf (self sw.2) ∧
    trained_b (self sw'.2) = trained_b (self sw.2))); [done|].
  intros sw0 sw' _. simpl. tauto.
Qed.

(** Histories only grow. *)
Lemma em_iter_prefix budget sw :
  let sw' := em_iter X Z clusters y budget sw in
  b_hat_history (self sw.2) `prefix_of` b_hat_history (self sw'.2) ∧
  sigma2_hat_history (self sw.2) `prefix_of` sigma2_hat_history (self sw'.2) ∧
  D_hat_history (self sw.2) `prefix_of` D_hat_history (self sw'.2) ∧
  gll_history (self sw.2) `prefix_of` gll_history (self sw'.2).
Proof.
  simpl. apply (em_iter_ind (λ sw sw',
    b_hat_history (self sw.2) `prefix_of` b_hat_history (self sw'.2) ∧
    sigma2_hat_history (self sw.2) `prefix_of` sigma2_hat_history (self sw'.2) ∧
    D_hat_history (self sw.2) `prefix_of` D_hat_history (self sw'.2) ∧
    gll_history (self sw.2) `prefix_of` gll_history (self sw'.2))); [done|].
  intros sw0 sw' _ (Hb & Hs & HD & Hg). simpl in *.
  split_and!; (etrans; [apply prefix_app_r; reflexivity|eassumption]).
Qed.
End fit_facts.

(** ** Method bodies that never look at [min_iterations] *)
Section blind_facts.
Context `{Regressor} {label : Type} `{Countable label}.
Local Abbreviation M := (@M _ _ label).
Local Abbreviation world := (@world _ _ label).

Lemma blind_ret {A} (a : A) : min_iter_blind (ret a : M A).
Proof. done. Qed.

Lemma blind_raise {A} e : min_iter_blind (raise e : M A).
Proof. done. Qed.

Lemma blind_gets {A} (f : world → A) :
  (∀ v w, f (set_self (with_min_iterations v) w) = f w) → min_iter_blind (gets f).
Proof. intros Hf v w. unfold gets. by rewrite Hf. Qed.

Lemma blind_modify (f : world → world) :
  (∀ v w, f (set_self (with_min_iterations v) w) = set_self (with_min_iterations v) (f w)) →
  min_iter_blind (modify f).
Proof. intros Hf v w. unfold modify. by rewrite Hf. Qed.

Lemma blind_bind {A B} (m : M A) (k : A → M B) :
  min_iter_blind m → (∀ a, min_iter_blind (k a)) → min_iter_blind (bind m k).
Proof.
  intros Hm Hk v w. unfold bind. rewrite Hm.
  destruct (m w) as [[a|e] w1]; simpl; [apply Hk|done].
Qed.

Lemma blind_for_fold {A S} (l : list A) (s : S) (body : S → A → M S) :
  (∀ s a, min_iter_blind (body s a)) → min_iter_blind (for_fold l s body).
Proof.
  intros Hbody. revert s. induction l as [|a l IH]; intros s; [done|].
  simpl. apply blind_bind; [apply Hbody|apply IH].
Qed.

Lemma blind_alloc (df : DataFrame label) : min_iter_blind (alloc df).
Proof. done. Qed.
End blind_facts.

Create HintDb blind.
#[export] Hint Resolve blind_ret blind_raise blind_alloc : blind.
#[export] Hint Extern 1 (min_iter_blind (gets _)) => apply blind_gets; reflexivity : blind.
#[export] Hint Extern 1 (min_iter_blind (modify _)) => apply blind_modify; reflexivity : blind.
#[export] Hint Extern 2 (min_iter_blind (bind _ _)) => apply blind_bind; [|intros ?] : blind.
#[export] Hint Extern 2 (min_iter_blind (for_fold _ _ _)) =>
  apply blind_for_fold; intros ? ? : blind.
#[export] Hint Extern 3 (min_iter_blind (match ?x with _ => _ end)) => destruct x : blind.

Section blind_methods.
Context `{Regressor} {label : Type} `{Countable label}.
Local Abbreviation caches := (@caches _ label _ _).

Lemma blind_em_body X y ids n_obs n_clusters (ctx : caches) st :
  min_iter_blind (em_body X y ids n_obs n_clusters ctx st).
Proof.
  unfold em_body, e_step, m_step, gll_loop, stop_check, frame_copy, frame_loc_set, deref,
    dict_get, loc_getM, py_truediv, py_index_m2.
  cbv zeta. auto 40 with blind.
Qed.

Lemma blind_em_loop X y ids n_obs n_clusters (ctx : caches) budget st :
  min_iter_blind (em_loop X y ids n_obs n_clusters ctx budget st).
Proof.
  revert st. induction budget as [|b IH]; intros st; simpl; [apply blind_ret|].
  destruct (stop_flag st); [apply blind_ret|].
  apply blind_bind; [apply blind_em_body|apply IH].
Qed.

Lemma blind_fit_em X Z (clusters : list label) y : min_iter_blind (fit_em X Z clusters y).
Proof.
  unfold fit_em, build_caches, py_assert, loc_getM. cbv zeta.
  repeat (apply blind_bind; [solve [auto 10 with blind]|intros ?]).
  apply blind_bind; [apply blind_em_loop|intros ?]. apply blind_ret.
Qed.

Lemma blind_fit X Z (clusters : list label) y : min_iter_blind (fit X Z clusters y).
Proof.
  unfold fit. apply blind_bind; [apply blind_fit_em|intros r].
  unfold fit_store. auto 10 with blind.
Qed.
End blind_methods.

(** ** The coefficient table and the last snapshot *)
Section table_facts.
Context `{Regressor} {label : Type} `{Countable label}.
Local Abbreviation world := (@world _ _ label).

Variables (X Z : matrix) (clusters : list label) (y : vector).

Lemma loc_get_spec_b_table f_hat s D (ids : list label) (df : DataFrame label) i :
  (∀ j, j ∈ ids → j ∈ index df) → i ∈ ids →
  loc_get (spec_b_table Z clusters y f_hat s D ids df) i
  = Some (spec_b_hat Z clusters y f_hat s D i).
Proof.
  induction ids as [|a ids IH] using rev_ind; intros Hsub Hin.
  { by apply not_elem_of_nil in Hin. }
  unfold spec_b_table. rewrite fold_left_app. simpl.
  fold (spec_b_table Z clusters y f_hat s D ids df).
  assert (∀ j, j ∈ ids → j ∈ index df) as Hsub'.
  { intros j Hj. apply Hsub, elem_of_app. by left. }
  rewrite loc_get_loc_set; cycle 1.
  { rewrite index_spec_b_table by done. apply Hsub, elem_of_app. right. by left. }
  destruct (decide (a = i)) as [->|Hne]; [done|].
  apply IH; [done|]. apply elem_of_app in Hin as [Hi|Hi]; [done|].
  apply list_elem_of_singleton in Hi. congruence.
Qed.

(** Once an iteration has run, the last snapshot is a frame of its own
    whose content is that of the live table, and [rf] is the forest grown
    at the last position consumed in the random stream. *)
Lemma em_iter_last budget sw :
  fit_inv clusters sw →
  let sw' := em_iter X Z clusters y budget sw in
  sw' = sw ∨
  ∃ snap y_star,
    last (b_hat_history (self sw'.2)) = Some snap ∧
    snap ≠ b_hat_df sw'.1 ∧
    heap sw'.2 !!! snap = heap sw'.2 !!! b_hat_df sw'.1 ∧
    rf sw'.1 = Some (rf_fit (rng sw'.2 - 1) (n_estimators (self sw'.2)) X y_star).
Proof.
  revert sw. induction budget as [|b IH]; intros sw Hinv; simpl; [by left|].
  destruct (stop_flag sw.1); [by left|]. right.
  destruct (IH _ (fit_inv_next X Z clusters y sw Hinv)) as [->|Hlast]; [|done].
  destruct sw as [st w]. destruct Hinv as (Hl & Hidx & _). simpl in *.
  eexists _, _. split_and!.
  - by rewrite last_snoc.
  - lia.
  - rewrite lookup_total_app_r by (by rewrite length_insert).
    rewrite length_insert, Nat.sub_diag. simpl.
    rewrite lookup_total_app_l by (by rewrite length_insert).
    by rewrite list_lookup_total_insert_eq.
  - by rewrite Nat.sub_0_r.
Qed.
End table_facts.

(** ** Rows of a prediction *)
Section predict_rows.
Context `{Regressor} {label : Type} `{Countable label}.
Local Abbreviation world := (@world _ _ label).

Lemma mask_iadd_nil (a v : vector) : mask_iadd a [] v = a.
Proof. by destruct a. Qed.

Lemma length_mask_iadd (a : vector) mask v : length (mask_iadd a mask v) = length a.
Proof.
  revert mask v. induction a as [|x a IH]; intros [|[] mask] v; simpl; try done.
  - destruct v; simpl; by rewrite IH.
  - by rewrite IH.
Qed.

(** Row [k] after [y_hat[clusters == i] += Z[clusters == i].dot(b)]. *)
Lemma mask_iadd_row (y_hat : vector) (Z : matrix) (clusters : list label) (b : vector) i k :
  length y_hat = length clusters → length Z = length clusters →
  mask_iadd y_hat (eq_mask clusters i) (mv_dot (mask_select Z (eq_mask clusters i)) b) !! k
  = match y_hat !! k, clusters !! k, Z !! k with
    | Some p, Some c, Some z => Some (if decide (c = i) then fadd p (vdot z b) else p)
    | _, _, _ => None
    end.
Proof.
  revert Z clusters k.
  induction y_hat as [|p y_hat IH]; intros [|z Z] [|c clusters] k Hy HZ; try done.
  simpl in Hy, HZ. simpl. destruct (decide (c = i)) as [->|Hne].
  - rewrite bool_decide_eq_true_2 by done. simpl.
    destruct k as [|k]; simpl; [by rewrite decide_True|].
    apply IH; lia.
  - rewrite bool_decide_eq_false_2 by done.
    destruct k as [|k]; simpl; [by rewrite decide_False|].
    apply IH; lia.
Qed.

(** Row [k] after the corrections of all clusters of a duplicate-free
    list [ids]. *)
Lemma corrections_row (ids : list label) (b : label → vector)
    (y_hat : vector) (Z : matrix) (clusters : list label) k :
  NoDup ids →
  length y_hat = length clusters → length Z = length clusters →
  fold_left (λ yh i, mask_iadd yh (eq_mask clusters i)
                       (mv_dot (mask_select Z (eq_mask clusters i)) (b i)))
            ids y_hat !! k
  = match y_hat !! k, clusters !! k, Z !! k with
    | Some p, Some c, Some z =>
        Some (if decide (c ∈ ids) then fadd p (vdot z (b c)) else p)
    | _, _, _ => None
    end.
Proof.
  intros Hnd. revert y_hat. induction Hnd as [|a ids Hnotin Hnd IH]; intros y_hat Hy HZ.
  { simpl.
    destruct (y_hat !! k) eqn:E1, (clusters !! k) as [c|] eqn:E2, (Z !! k) eqn:E3;
      try done;
      try (destruct (decide (c ∈ [])) as [Hin|_]; [by apply not_elem_of_nil in Hin|done]);
      exfalso;
      repeat match goal with
             | E : _ !! _ = Some _ |- _ => apply lookup_lt_Some in E
             | E : _ !! _ = None |- _ => apply lookup_ge_None in E
             end; lia. }
  simpl. rewrite IH by (by rewrite ?length_mask_iadd).
  rewrite mask_iadd_row by done.
  destruct (y_hat !! k) as [p|], (clusters !! k) as [c|], (Z !! k) as [z|]; try done.
  f_equal. destruct (decide (c = a)) as [->|Hne].
  - rewrite decide_False by done. rewrite decide_True; [done|by left].
  - destruct (decide (c ∈ ids)) as [Hin|Hin].
    + rewrite decide_True; [done|by right].
    + rewrite decide_False; [done|]. intros [?|?]%elem_of_cons; done.
Qed.

(** [predict] on a model whose attributes are consistent. *)
Lemma predict_run (X Z : matrix) (clusters : list label) (w : world) f l counts :
  trained_rf (self w) = Some f →
  trained_b (self w) = Some l →
  cluster_counts (self w) = Some counts →
  index (heap w !!! l) = index counts →
  predict X Z clusters w
  = (Ok (fold_left (λ yh i, mask_iadd yh (eq_mask clusters i)
                              (mv_dot (mask_select Z (eq_mask clusters i))
                                      (b_of (heap w !!! l) i)))
                   (index counts) (rf_predict f X)), w).
Proof.
  intros Hrf Hb Hcc Hidx. unfold predict.
  erewrite bind_Ok by reflexivity. rewrite Hrf.
  erewrite bind_Ok; cycle 1.
  { erewrite bind_Ok by reflexivity. rewrite Hcc. reflexivity. }
  apply for_fold_pure. intros a yh Hin.
  destruct (decide (length (eq_mask clusters a) = 0%nat)) as [Hlen|Hlen].
  { apply nil_length_inv in Hlen. rewrite Hlen. by rewrite mask_iadd_nil. }
  erewrite bind_Ok; cycle 1.
  { erewrite bind_Ok by reflexivity. rewrite Hb. reflexivity. }
  erewrite bind_Ok by reflexivity.
  unfold bind, loc_getM. rewrite b_of_loc_get; [done|]. by rewrite Hidx.
Qed.

(** What a call of [fit] that returns leaves in the model. *)
Lemma fit_fitted (X Z : matrix) (clusters : list label) (y : vector) (w w' : world) :
  fit X Z clusters y w = (Ok tt, w') →
  ∃ f l, trained_rf (self w') = Some f ∧
         trained_b (self w') = Some l ∧
         cluster_counts (self w') = Some (value_counts clusters) ∧
         index (heap w' !!! l) = index (value_counts clusters).
Proof.
  intros Hfit. destruct (fit_Ok_inv _ _ _ _ _ _ Hfit) as (Hrows & Hy & Hmax & Hend).
  pose proof (fit_inv_iter X Z clusters y (Z.to_nat (max_iterations (self w))) _
                (fit_inv_start Z clusters w)) as (_ & Hidx & _).
  unfold fit_end in Hend. destruct (rf _) as [f|] in Hend; [|discriminate].
  injection Hend as <-. by exists f, (b_hat_df (em_iter X Z clusters y
    (Z.to_nat (max_iterations (self w))) (fit_start Z clusters w)).1).
Qed.
End predict_rows.

(** ** Counting iterations *)
Section count_facts.
Context `{Regressor} {label : Type} `{Countable label}.
Local Abbreviation world := (@world _ _ label).

Variables (X Z : matrix) (clusters : list label) (y : vector).

Lemma em_iter_stopped budget sw :
  stop_flag sw.1 = true → em_iter X Z clusters y budget sw = sw.
Proof. intros Hstop. destruct budget; simpl; [done|]. by rewrite Hstop. Qed.

(** Without a threshold the loop uses up its budget. *)
Lemma em_iter_no_threshold budget sw :
  gll_early_stop_threshold (self sw.2) = None →
  stop_flag sw.1 = false →
  iteration (em_iter X Z clusters y budget sw).1 = (iteration sw.1 + Z.of_nat budget)%Z.
Proof.
  revert sw. induction budget as [|b IH]; intros sw Hthr Hstop; simpl; [lia|].
  rewrite Hstop, IH; simpl; [lia|done|].
  by rewrite Hthr.
Qed.

(** The first iteration under a threshold only sets [iter_begun]. *)
Lemma em_next_first sw thr :
  gll_early_stop_threshold (self sw.2) = Some thr →
  iter_begun sw.1 = false →
  stop_flag (em_next X Z clusters y sw).1 = stop_flag sw.1 ∧
  iter_begun (em_next X Z clusters y sw).1 = true.
Proof. intros Hthr Hbegun. simpl. by rewrite Hthr, Hbegun. Qed.

(** A later iteration stops the loop when the relative change of the GLL
    is below the threshold. *)
Lemma em_next_later sw thr prev :
  gll_early_stop_threshold (self sw.2) = Some thr →
  iter_begun sw.1 = true →
  stop_flag sw.1 = false →
  last (gll_history (self sw.2)) = Some prev →
  ∃ gll,
    gll_history (self (em_next X Z clusters y sw).2) = gll_history (self sw.2) ++ [gll] ∧
    stop_flag (em_next X Z clusters y sw).1 = flt (fabs (fdiv (fsub gll prev) prev)) thr.
Proof.
  destruct sw as [st w]. simpl fst. simpl snd.
  intros Hthr Hbegun Hstop Hlast. eexists. split; [reflexivity|].
  cbv beta iota zeta delta [em_next next_flags fst snd].
  rewrite Hthr, Hbegun, Hlast. simpl. rewrite Hstop. by destruct (flt _ thr).
Qed.

Lemma em_iter_S budget sw :
  stop_flag sw.1 = false →
  em_iter X Z clusters y (S budget) sw = em_iter X Z clusters y budget (em_next X Z clusters y sw).
Proof. intros Hstop. simpl. by rewrite Hstop. Qed.

Lemma em_next_history sw :
  ∃ gll, gll_history (self (em_next X Z clusters y sw).2) = gll_history (self sw.2) ++ [gll].
Proof. by eexists. Qed.

Lemma em_next_iteration sw :
  iteration (em_next X Z clusters y sw).1 = (iteration sw.1 + 1)%Z.
Proof. done. Qed.

Lemma fit_end_frame sw :
  gll_history (self (fit_end clusters sw).2) = gll_history (self sw.2) ∧
  b_hat_history (self (fit_end clusters sw).2) = b_hat_history (self sw.2) ∧
  heap (fit_end clusters sw).2 = heap sw.2 ∧
  rng (fit_end clusters sw).2 = rng sw.2.
Proof. unfold fit_end. by destruct (rf sw.1). Qed.
End count_facts.

(** * The claims *)
Section claims.
Context `{Regressor} {label : Type} `{Countable label}.
Local Abbreviation M := (@M _ _ label).
Local Abbreviation world := (@world _ _ label).
Local Abbreviation caches := (@caches _ label _ _).

(** C6.  When the row counts of [X], [Z], [clusters] and [y] do not all
    agree, [fit] raises the assertion error at once: the world is exactly
    the one it was called in, so nothing has been computed, no forest has
    been fitted (the random stream has not moved) and no attribute of the
    model has been written. *)
Theorem fit_shape_mismatch (X Z : matrix) (clusters : list label) (y : vector) (w : world) :
  ¬ same_rows X Z clusters y →
  fit X Z clusters y w = (Raise AssertionError, w).
Proof.
  intros Hrows. unfold fit. by erewrite bind_Raise by (by apply fit_em_assert).
Qed.


(** C10.  With [max_iterations <= 0] and inputs of equal row counts the
    body of the while loop never runs (the loop counter ends at 0 and the
    random stream has not moved), [rf] is unbound at line 261, and [fit]
    raises UnboundLocalError without storing a forest or a coefficient
    table. *)
Theorem fit_needs_an_iteration (X Z : matrix) (clusters : list label) (y : vector) (w : world) :
  same_rows X Z clusters y →
  (max_iterations (self w) ≤ 0)%Z →
  ∃ w', fit X Z clusters y w = (Raise UnboundLocalError, w') ∧
        iterations_run X Z clusters y w = 0%Z ∧
        rng w' = rng w ∧
        trained_rf (self w') = trained_rf (self w) ∧
        trained_b (self w') = trained_b (self w).
Proof.
  intros Hrows Hmax. eexists. split; [by apply fit_no_iteration|].
  unfold iterations_run. by rewrite fit_em_no_iteration.
Qed.

(** C8.  Two calls of [fit] from worlds that differ only in
    [min_iterations] have the same outcome, run the same number of
    iterations, and leave the same histories, heap, random stream and
    trained attributes. *)
Theorem min_iterations_unused (X Z : matrix) (clusters : list label) (y : vector)
    (a b : BinNums.Z) (w : world) :
  let r1 := fit X Z clusters y (set_self (with_min_iterations a) w) in
  let r2 := fit X Z clusters y (set_self (with_min_iterations b) w) in
  r1.1 = r2.1 ∧
  iterations_run X Z clusters y (set_self (with_min_iterations a) w)
  = iterations_run X Z clusters y (set_self (with_min_iterations b) w) ∧
  b_hat_history (self r1.2) = b_hat_history (self r2.2) ∧
  sigma2_hat_history (self r1.2) = sigma2_hat_history (self r2.2) ∧
  D_hat_history (self r1.2) = D_hat_history (self r2.2) ∧
  gll_history (self r1.2) = gll_history (self r2.2) ∧
  heap r1.2 = heap r2.2 ∧
  rng r1.2 = rng r2.2 ∧
  cluster_counts (self r1.2) = cluster_counts (self r2.2) ∧
  trained_rf (self r1.2) = trained_rf (self r2.2) ∧
  trained_b (self r1.2) = trained_b (self r2.2).
Proof.
  simpl. rewrite !(blind_fit X Z clusters y). simpl.
  unfold iterations_run. rewrite !(blind_fit_em X Z clusters y). simpl.
  by destruct (fit_em X Z clusters y w) as [[r|e] w1].
Qed.

(** C4 (amended).  After a call of [fit] that returns, the three histories
    of coefficients and variance components have grown by the number of
    iterations run plus one, and the GLL history by the number of
    iterations run; on a model whose histories were empty these are their
    lengths. *)
Theorem history_lengths (X Z : matrix) (clusters : list label) (y : vector) (w w' : world) :
  fit X Z clusters y w = (Ok tt, w') →
  let n := Z.to_nat (iterations_run X Z clusters y w) in
  length (b_hat_history (self w')) = (length (b_hat_history (self w)) + (n + 1))%nat ∧
  length (sigma2_hat_history (self w')) = (length (sigma2_hat_history (self w)) + (n + 1))%nat ∧
  length (D_hat_history (self w')) = (length (D_hat_history (self w)) + (n + 1))%nat ∧
  length (gll_history (self w')) = (length (gll_history (self w)) + n)%nat.
Proof.
  intros Hfit. destruct (fit_Ok_inv _ _ _ _ _ _ Hfit) as (Hrows & Hy & Hmax & Hend).
  unfold iterations_run. rewrite fit_em_run by done. simpl.
  destruct (em_iter_lengths X Z clusters y (Z.to_nat (max_iterations (self w)))
              (fit_start Z clusters w)) as (k & Hk & Hit & Hrng & Hb & Hs & HD & Hg).
  unfold fit_end in Hend.
  destruct (rf _) in Hend; [|discriminate].
  injection Hend as <-. simpl in *. rewrite Hit, Hb, Hs, HD, Hg, !length_app. simpl. lia.
Qed.

(** C1.  With the dicts that [fit] has filled for its inputs, one pass of
    the M-step over the clusters, in the order of the value counts, started
    from variance components [s] and [D]: stores for every cluster [i] the
    row [b_hat_i = D·Z_i^T·pinv(V_hat_i)·(y_i − f_hat_i)] with
    [V_hat_i = Z_i·D·Z_i^T + s·I_i], every cluster using the same [s] and
    [D]; accumulates the two sums of the per-cluster terms; and only then
    returns the new components, the sums scaled by [1/n_obs] and
    [1/n_clusters].  Nothing but the coefficient table changes. *)
Theorem m_step_frozen_components (Z : matrix) (clusters : list label) (y f_hat : vector)
    (ctx : caches) (l : loc) (s : scalar) (D : matrix) (w0 w : world) :
  (build_caches (value_counts clusters) Z clusters y w0).1 = Ok ctx →
  (l < length (heap w))%nat →
  index (heap w !!! l) = index (value_counts clusters) →
  y ≠ [] → clusters ≠ [] →
  let ids := index (value_counts clusters) in
  let table := spec_b_table Z clusters y f_hat s D ids (heap w !!! l) in
  m_step ids (length y) (nunique clusters) ctx f_hat l s D w
  = (Ok (spec_sigma2_next Z clusters y f_hat s D ids (length y),
         spec_D_next Z clusters y f_hat s D ids (nunique clusters)),
     set_heap (<[l := table]> (heap w)) w) ∧
  (∀ i, i ∈ ids → loc_get table i = Some (spec_b_hat Z clusters y f_hat s D i)) ∧
  index table = ids.
Proof.
  intros Hctx Hl Hidx Hy Hc. rewrite build_caches_run in Hctx. injection Hctx as <-.
  simpl. split_and!.
  - apply m_step_run; [apply spec_caches_ok|done|done|done].
  - intros i Hi. apply loc_get_spec_b_table; [|done]. intros j Hj. by rewrite Hidx.
  - rewrite index_spec_b_table; [done|]. intros j Hj. by rewrite Hidx.
Qed.

(** C2.  At a test of the while loop of [fit], one pass through the loop
    body returns, and the value it appends to [gll_history] is the sum over
    the clusters of
    [resid_i^T·pinv(R_i)·resid_i + b_hat_i^T·pinv(D_hat)·b_hat_i + logdet(D_hat) + logdet(R_i)],
    [R_i = sigma2_hat·I_i], evaluated at the coefficient table, the
    [sigma2_hat] and the [D_hat] that this pass has just computed and
    appended to the histories, and at the held-out predictions of the forest
    of this pass; the log-determinants are the second components of
    [slogdet]. *)
Theorem gll_of_iteration (X Z : matrix) (clusters : list label) (y : vector)
    (ctx : caches) (st : locals) (w0 w : world) :
  (build_caches (value_counts clusters) Z clusters y w0).1 = Ok ctx →
  fit_inv clusters (st, w) →
  y ≠ [] → clusters ≠ [] →
  let ids := index (value_counts clusters) in
  ∃ st' w' f snap,
    em_body X y ids (length y) (nunique clusters) ctx st w = (Ok st', w') ∧
    rf st' = Some f ∧
    sigma2_hat st' = spec_sigma2_next Z clusters y (oob_prediction_ f)
                       (sigma2_hat st) (D_hat st) ids (length y) ∧
    D_hat st' = spec_D_next Z clusters y (oob_prediction_ f)
                  (sigma2_hat st) (D_hat st) ids (nunique clusters) ∧
    heap w' !!! b_hat_df st' = spec_b_table Z clusters y (oob_prediction_ f)
                                 (sigma2_hat st) (D_hat st) ids (heap w !!! b_hat_df st) ∧
    last (sigma2_hat_history (self w')) = Some (sigma2_hat st') ∧
    last (D_hat_history (self w')) = Some (D_hat st') ∧
    last (b_hat_history (self w')) = Some snap ∧
    heap w' !!! snap = heap w' !!! b_hat_df st' ∧
    gll_history (self w')
    = gll_history (self w)
      ++ [spec_gll Z clusters y ids (oob_prediction_ f) (heap w' !!! b_hat_df st')
            (sigma2_hat st') (D_hat st')].
Proof.
  intros Hctx Hinv Hy Hc. rewrite build_caches_run in Hctx. injection Hctx as <-.
  simpl. eexists _, _, _, _. split.
  { apply em_body_run; [apply spec_caches_ok|done|done|done]. }
  destruct Hinv as (Hl & Hidx & _). simpl in *.
  assert (∀ df : DataFrame label,
            (<[b_hat_df st := df]> (heap w) ++ [df]) !!! b_hat_df st = df) as Hlive.
  { intros df. rewrite lookup_total_app_l by (by rewrite length_insert).
    by rewrite list_lookup_total_insert_eq. }
  assert (∀ df : DataFrame label,
            (<[b_hat_df st := df]> (heap w) ++ [df]) !!! length (heap w) = df) as Hsnap.
  { intros df. rewrite lookup_total_app_r by (by rewrite length_insert).
    by rewrite length_insert, Nat.sub_diag. }
  rewrite !last_snoc, Hlive.
  split_and!; try reflexivity. by rewrite Hsnap.
Qed.

(** C5 (what the code does).  After a call of [fit] that returns, the entry
    that the call recorded in [b_hat_history] before its first iteration is
    the very frame that the iterations have updated in place and that is
    stored as [trained_b]: it is not a copy, and its content is that of the
    last snapshot, the final coefficients. *)
Theorem first_snapshot_is_live_table (X Z : matrix) (clusters : list label) (y : vector)
    (w w' : world) :
  fit X Z clusters y w = (Ok tt, w') →
  ∃ l snap,
    b_hat_history (self w') !! length (b_hat_history (self w)) = Some l ∧
    trained_b (self w') = Some l ∧
    last (b_hat_history (self w')) = Some snap ∧
    snap ≠ l ∧
    heap w' !!! l = heap w' !!! snap.
Proof.
  intros Hfit. destruct (fit_Ok_inv _ _ _ _ _ _ Hfit) as (Hrows & Hy & Hmax & Hend).
  set (sw' := em_iter X Z clusters y (Z.to_nat (max_iterations (self w)))
                (fit_start Z clusters w)) in *.
  destruct (em_iter_frame X Z clusters y (Z.to_nat (max_iterations (self w)))
              (fit_start Z clusters w)) as (Hb & _).
  destruct (em_iter_prefix X Z clusters y (Z.to_nat (max_iterations (self w)))
              (fit_start Z clusters w)) as (Hpre & _).
  destruct (em_iter_last X Z clusters y (Z.to_nat (max_iterations (self w)))
              (fit_start Z clusters w) (fit_inv_start Z clusters w)) as [Heq|Hlast].
  { fold sw' in Heq. unfold fit_end in Hend. rewrite Heq in Hend. discriminate. }
  destruct Hlast as (snap & y_star & Hsnap & Hne & Hheap & Hrf).
  fold sw' in Hb, Hpre, Hsnap, Hne, Hheap, Hrf.
  unfold fit_end in Hend. rewrite Hrf in Hend. injection Hend as <-.
  simpl in *. exists (length (heap w)), snap. rewrite Hb in *. split_and!; try done.
  eapply prefix_lookup_Some; [|exact Hpre]. apply list_lookup_middle. done.
Qed.

(** C7.  On a model left by a call of [fit] that returned, and for inputs
    with one cluster label, one row of [Z] and one forest prediction per
    row, [predict] returns; a row whose label was not among the training
    labels gets exactly the forest prediction, and a row of a training
    cluster [i] gets the forest prediction plus the product of its row of
    [Z] with the stored [b_hat_i].  Training clusters without rows in the
    input change nothing and raise nothing. *)
Theorem predict_corrections (Xt Zt : matrix) (ct : list label) (yt : vector) (w0 w : world)
    (X Z : matrix) (clusters : list label) (f : forest) (l : loc) :
  fit Xt Zt ct yt w0 = (Ok tt, w) →
  trained_rf (self w) = Some f →
  trained_b (self w) = Some l →
  length Z = length clusters →
  length (rf_predict f X) = length clusters →
  ∃ y_hat,
    predict X Z clusters w = (Ok y_hat, w) ∧
    ∀ k i p z,
      clusters !! k = Some i → rf_predict f X !! k = Some p → Z !! k = Some z →
      (i ∉ ct → y_hat !! k = Some p) ∧
      (i ∈ ct → y_hat !! k = Some (fadd p (vdot z (b_of (heap w !!! l) i)))).
Proof.
  intros Hfit Hrf Hb HZ Hp.
  destruct (fit_fitted _ _ _ _ _ _ Hfit) as (f' & l' & Hrf' & Hb' & Hcc & Hidx).
  assert (f' = f) as -> by congruence. assert (l' = l) as -> by congruence.
  eexists. split; [by apply (predict_run X Z clusters w f l (value_counts ct))|].
  intros k i p z Hk Hpk Hzk.
  rewrite (corrections_row _ (λ i, b_of (heap w !!! l) i))
    by (done || apply NoDup_index_value_counts).
  rewrite Hk, Hpk, Hzk. split; intros Hi.
  - rewrite decide_False; [done|]. by rewrite elem_of_index_value_counts.
  - rewrite decide_True; [done|]. by rewrite elem_of_index_value_counts.
Qed.

(** C3 (amended).  For inputs of equal, non-zero row count the while loop
    of [fit] terminates normally.  Without a threshold it runs
    [max_iterations] iterations (none when [max_iterations <= 0]).  With a
    threshold that the relative change between the first two GLL values of
    the call stays below, it runs two iterations when [max_iterations >= 2]
    and [max_iterations] iterations otherwise (one, or none).  Each
    iteration fits one forest.  When [fit] returns, the forest it stores is
    the one grown in the last iteration run, and the coefficient table it
    stores has the content of the last snapshot. *)
Theorem iterations_of_fit (X Z : matrix) (clusters : list label) (y : vector) (w : world) :
  same_rows X Z clusters y → y ≠ [] →
  let n := iterations_run X Z clusters y w in
  let w' := (fit X Z clusters y w).2 in
  (∃ r, (fit_em X Z clusters y w).1 = Ok r) ∧
  (gll_early_stop_threshold (self w) = None → n = Z.max 0 (max_iterations (self w))) ∧
  (∀ thr, gll_early_stop_threshold (self w) = Some thr →
     (∀ g1 g2, gll_history (self w') !! length (gll_history (self w)) = Some g1 →
               gll_history (self w') !! S (length (gll_history (self w))) = Some g2 →
               flt (fabs (fdiv (fsub g2 g1) g1)) thr = true) →
     n = Z.min 2 (Z.max 0 (max_iterations (self w)))) ∧
  rng w' = (rng w + Z.to_nat n)%nat ∧
  ((fit X Z clusters y w).1 = Ok tt →
     ∃ l snap y_star,
       trained_rf (self w') = Some (rf_fit (rng w' - 1) (n_estimators (self w)) X y_star) ∧
       trained_b (self w') = Some l ∧
       last (b_hat_history (self w')) = Some snap ∧
       heap w' !!! l = heap w' !!! snap).
Proof.
  intros Hrows Hy. cbv zeta.
  unfold iterations_run. rewrite fit_run, fit_em_run by done. cbn [fst snd].
  set (B := Z.to_nat (max_iterations (self w))).
  set (sw0 := fit_start Z clusters w).
  destruct (fit_end_frame clusters (em_iter X Z clusters y B sw0)) as (Hg & Hbh & Hheap & Hrng).
  rewrite Hg, Hrng.
  split_and!.
  - by eexists.
  - intros Hthr. rewrite em_iter_no_threshold by done. subst B sw0. simpl. lia.
  - intros thr Hthr Hbelow.
    destruct B as [|[|b]] eqn:HB.
    + simpl. lia.
    + simpl. lia.
    + pose proof (em_next_first X Z clusters y sw0 thr Hthr eq_refl) as (Hstop1 & Hbegun1).
      change (stop_flag sw0.1) with false in Hstop1.
      destruct (em_next_history X Z clusters y sw0) as (g1 & Hh1).
      change (gll_history (self sw0.2)) with (gll_history (self w)) in Hh1.
      set (sw1 := em_next X Z clusters y sw0) in *.
      destruct (em_next_later X Z clusters y sw1 thr g1)
        as (g2 & Hh2 & Hstop2); [done|done|done|by rewrite Hh1, last_snoc|].
      pose proof (em_next_iteration X Z clusters y sw1) as Hi2.
      pose proof (em_next_iteration X Z clusters y sw0) as Hi1.
      fold sw1 in Hi1.
      set (sw2 := em_next X Z clusters y sw1) in *.
      assert (em_iter X Z clusters y (S (S b)) sw0 = em_iter X Z clusters y b sw2) as E.
      { rewrite (em_iter_S X Z clusters y (S b) sw0) by done.
        fold sw1. by rewrite (em_iter_S X Z clusters y b sw1) by done. }
      rewrite E in Hbelow |- *.
      destruct (flt (fabs (fdiv (fsub g2 g1) g1)) thr) eqn:Hflt.
      * rewrite em_iter_stopped by done. rewrite Hi2, Hi1.
        change (iteration sw0.1) with 0%Z. lia.
      * exfalso.
        destruct (em_iter_prefix X Z clusters y b sw2) as (_ & _ & _ & Hpre).
        rewrite Hh2, Hh1 in Hpre.
        rewrite (Hbelow g1 g2) in Hflt; [done| |].
        -- eapply prefix_lookup_Some; [|exact Hpre].
           rewrite lookup_app_l by (rewrite length_app; simpl; lia).
           apply list_lookup_middle. done.
        -- eapply prefix_lookup_Some; [|exact Hpre].
           apply list_lookup_middle. rewrite length_app. simpl. lia.
  - destruct (em_iter_lengths X Z clusters y B sw0) as (k & _ & Hit & Hr & _).
    rewrite Hit, Hr. subst sw0. simpl. lia.
  - intros Hok.
    destruct (em_iter_frame X Z clusters y B sw0) as (Hb & Hn & _).
    destruct (em_iter_last X Z clusters y B sw0 (fit_inv_start Z clusters w)) as [Heq|Hlast].
    { unfold fit_end in Hok. rewrite Heq in Hok. discriminate. }
    destruct Hlast as (snap & y_star & Hsnap & Hne & Hheap' & Hrf).
    exists (b_hat_df (em_iter X Z clusters y B sw0).1), snap, y_star.
    change (n_estimators (self sw0.2)) with (n_estimators (self w)) in Hn.
    rewrite Hn in Hrf.
    rewrite Hheap, Hbh. unfold fit_end. rewrite Hrf. cbn [fst snd].
    by rewrite Hheap'.
Qed.
End claims.

(** * Further properties of the methods *)

(** ** What [fit] leaves alone *)
Section keeps_facts.
Context `{Regressor} {label : Type} `{Countable label}.
Local Abbreviation M := (@M _ _ label).
Local Abbreviation world := (@world _ _ label).
Local Abbreviation caches := (@caches _ label _ _).

Lemma keeps_ret {A B} (f : world → B) (a : A) : keeps f (ret a : M A).
Proof. done. Qed.

Lemma keeps_raise {A B} (f : world → B) e : keeps f (raise e : M A).
Proof. done. Qed.

Lemma keeps_gets {A B} (f : world → B) (g : world → A) : keeps f (gets g).
Proof. done. Qed.

Lemma keeps_modify {B} (f : world → B) (g : world → world) :
  (∀ w, f (g w) = f w) → keeps f (modify g).
Proof. intros Hg w. apply Hg. Qed.

Lemma keeps_alloc {B} (f : world → B) (df : DataFrame label) :
  (∀ h w, f (set_heap h w) = f w) → keeps f (alloc df).
Proof. intros Hf w. apply Hf. Qed.

Lemma keeps_bind {A B C} (f : world → C) (m : M A) (k : A → M B) :
  keeps f m → (∀ a, keeps f (k a)) → keeps f (bind m k).
Proof.
  intros Hm Hk w. unfold bind. specialize (Hm w).
  destruct (m w) as [[a|e] w1]; simpl in *; [by rewrite Hk|done].
Qed.

Lemma keeps_for_fold {A S C} (f : world → C) (l : list A) (s : S) (body : S → A → M S) :
  (∀ s a, keeps f (body s a)) → keeps f (for_fold l s body).
Proof.
  intros Hbody. revert s. induction l as [|a l IH]; intros s; [done|].
  simpl. apply keeps_bind; [apply Hbody|apply IH].
Qed.
End keeps_facts.

Create HintDb keeps.
#[export] Hint Resolve keeps_ret keeps_raise keeps_gets : keeps.
#[export] Hint Extern 1 (keeps _ (modify _)) =>
  apply keeps_modify; intros; cbn; first [reflexivity | solve [auto]] : keeps.
#[export] Hint Extern 1 (keeps _ (alloc _)) =>
  apply keeps_alloc; intros; cbn; first [reflexivity | solve [auto]] : keeps.
#[export] Hint Extern 2 (keeps _ (bind _ _)) => apply keeps_bind; [|intros ?] : keeps.
#[export] Hint Extern 2 (keeps _ (for_fold _ _ _)) =>
  apply keeps_for_fold; intros ? ? : keeps.
#[export] Hint Extern 3 (keeps _ (match ?x with _ => _ end)) => destruct x : keeps.

Section keeps_methods.
Context `{Regressor} {label : Type} `{Countable label}.
Local Abbreviation world := (@world _ _ label).
Local Abbreviation MERF := (@MERF _ _ label).
Local Abbreviation caches := (@caches _ label _ _).

(** An attribute that the appends to the histories do not change is left
    alone by everything up to the end of the while loop. *)
Section attribute.
Context {B : Type} (g : MERF → B).
Hypothesis g_history : ∀ b s2 D s, g (append_history b s2 D s) = g s.
Hypothesis g_gll : ∀ x s, g (append_gll x s) = g s.

Lemma keeps_em_body X y ids n_obs n_clusters (ctx : caches) st :
  keeps (λ w : world, g (self w)) (em_body X y ids n_obs n_clusters ctx st).
Proof using g_history g_gll.
  unfold em_body, e_step, m_step, gll_loop, stop_check, frame_copy, frame_loc_set, deref,
    dict_get, loc_getM, py_truediv, py_index_m2.
  cbv zeta. auto 40 with keeps.
Qed.

Lemma keeps_em_loop X y ids n_obs n_clusters (ctx : caches) budget st :
  keeps (λ w : world, g (self w)) (em_loop X y ids n_obs n_clusters ctx budget st).
Proof using g_history g_gll.
  revert st. induction budget as [|b IH]; intros st; simpl; [apply keeps_ret|].
  destruct (stop_flag st); [apply keeps_ret|].
  apply keeps_bind; [apply keeps_em_body|apply IH].
Qed.

Lemma keeps_fit_em X Z (clusters : list label) y :
  keeps (λ w : world, g (self w)) (fit_em X Z clusters y).
Proof using g_history g_gll.
  unfold fit_em, build_caches, py_assert, loc_getM. cbv zeta.
  repeat (apply keeps_bind; [solve [auto 10 with keeps]|intros ?]).
  apply keeps_bind; [apply keeps_em_loop|intros ?]. apply keeps_ret.
Qed.
End attribute.

(** X3.  Whatever its outcome, [fit] leaves the four configuration
    attributes of the model as they were. *)
Theorem fit_keeps_configuration (X Z : matrix) (clusters : list label) (y : vector) (w : world) :
  let w' := (fit X Z clusters y w).2 in
  n_estimators (self w') = n_estimators (self w) ∧
  min_iterations (self w') = min_iterations (self w) ∧
  gll_early_stop_threshold (self w') = gll_early_stop_threshold (self w) ∧
  max_iterations (self w') = max_iterations (self w).
Proof.
  cbv zeta. unfold fit, bind.
  pose proof (keeps_fit_em n_estimators (λ _ _ _ _, eq_refl) (λ _ _, eq_refl)
                X Z clusters y w) as K1.
  pose proof (keeps_fit_em min_iterations (λ _ _ _ _, eq_refl) (λ _ _, eq_refl)
                X Z clusters y w) as K2.
  pose proof (keeps_fit_em gll_early_stop_threshold (λ _ _ _ _, eq_refl) (λ _ _, eq_refl)
                X Z clusters y w) as K3.
  pose proof (keeps_fit_em max_iterations (λ _ _ _ _, eq_refl) (λ _ _, eq_refl)
                X Z clusters y w) as K4.
  simpl in K1, K2, K3, K4.
  destruct (fit_em X Z clusters y w) as [[r|e] w1]; simpl in *; [|done].
  unfold fit_store, bind. simpl. by destruct (rf r.2).
Qed.

(** X2.  A call of [fit] that raises, at whatever point, leaves the stored
    forest and the stored coefficient table of the model as they were. *)
Theorem failed_fit_keeps_trained_model (X Z : matrix) (clusters : list label) (y : vector)
    (w : world) :
  (fit X Z clusters y w).1 ≠ Ok tt →
  trained_rf (self (fit X Z clusters y w).2) = trained_rf (self w) ∧
  trained_b (self (fit X Z clusters y w).2) = trained_b (self w).
Proof.
  unfold fit, bind.
  pose proof (keeps_fit_em trained_rf (λ _ _ _ _, eq_refl) (λ _ _, eq_refl)
                X Z clusters y w) as K1.
  pose proof (keeps_fit_em trained_b (λ _ _ _ _, eq_refl) (λ _ _, eq_refl)
                X Z clusters y w) as K2.
  simpl in K1, K2.
  destruct (fit_em X Z clusters y w) as [[r|e] w1]; simpl in *; [|done].
  unfold fit_store, bind. simpl. destruct (rf r.2); simpl; [|done].
  intros Hne. by destruct Hne.
Qed.

(** X1.  On a model that holds no forest, a call of [fit] that raises leaves
    a model on which [predict] still raises NotFittedError (and changes
    nothing), although [fit] may already have stored new cluster counts. *)
Theorem predict_after_failed_fit (X Z : matrix) (clusters : list label) (y : vector)
    (X' Z' : matrix) (clusters' : list label) (w : world) :
  trained_rf (self w) = None →
  (fit X Z clusters y w).1 ≠ Ok tt →
  predict X' Z' clusters' (fit X Z clusters y w).2
  = (Raise NotFittedError, (fit X Z clusters y w).2).
Proof.
  intros Hnone Hfail.
  assert (trained_rf (self (fit X Z clusters y w).2) = None) as Hrf.
  { rewrite <- Hnone. revert Hfail. unfold fit, bind.
    pose proof (keeps_fit_em trained_rf (λ _ _ _ _, eq_refl) (λ _ _, eq_refl)
                  X Z clusters y w) as K1.
    simpl in K1.
    destruct (fit_em X Z clusters y w) as [[r|e] w1]; simpl in *; [|done].
    unfold fit_store, bind. simpl. destruct (rf r.2); simpl; [|done].
    intros Hne. by destruct Hne. }
  unfold predict, bind, gets. by rewrite Hrf.
Qed.
End keeps_methods.

(** ** The partition into clusters and the E-step *)
Section partition_facts.
Context `{Regressor} {label : Type} `{Countable label}.
Local Abbreviation world := (@world _ _ label).
Local Abbreviation caches := (@caches _ label _ _).

Lemma length_mask_select_eq_mask {A} (a : list A) (clusters : list label) i :
  length a = length clusters →
  length (mask_select a (eq_mask clusters i)) = count_of clusters i.
Proof.
  unfold count_of. revert clusters.
  induction a as [|x a IH]; intros [|c clusters] Hlen; try done.
  simpl in Hlen. simpl. rewrite filter_cons.
  destruct (decide (c = i)) as [->|Hne].
  - rewrite bool_decide_eq_true_2 by done. simpl. f_equal. apply IH. lia.
  - rewrite bool_decide_eq_false_2 by done. apply IH. lia.
Qed.

Lemma count_of_pos (clusters : list label) i : i ∈ clusters → (1 ≤ count_of clusters i)%nat.
Proof.
  intros Hin. unfold count_of.
  assert (i ∈ filter (λ c, c = i) clusters) as Hf by (by apply list_elem_of_filter).
  destruct (filter (λ c, c = i) clusters); [by apply not_elem_of_nil in Hf|simpl; lia].
Qed.

Lemma length_np_eye n : length (np_eye n) = n ∧ ∀ r, r ∈ np_eye n → length r = n.
Proof.
  unfold np_eye. split; [by rewrite length_fmap, length_seq|].
  intros r (k & -> & _)%list_elem_of_fmap. by rewrite length_fmap, length_seq.
Qed.

Lemma filter_all {A} (P : A → Prop) `{∀ x, Decision (P x)} (l : list A) :
  (∀ x, x ∈ l → P x) → filter P l = l.
Proof.
  induction l as [|x l IH]; intros HP; [done|].
  rewrite filter_cons, decide_True by (apply HP; by left).
  f_equal. apply IH. intros x' Hx'. apply HP. by right.
Qed.

(** The number of rows labelled with one of the distinct labels [ids]. *)
Lemma sum_count_of (clusters ids : list label) :
  NoDup ids →
  sum_list (count_of clusters <$> ids) = length (filter (λ c, c ∈ ids) clusters).
Proof.
  intros Hnd. induction clusters as [|c clusters IH].
  { clear Hnd. induction ids as [|i ids IHi]; [done|]. exact IHi. }
  rewrite filter_cons.
  assert (sum_list (count_of (c :: clusters) <$> ids)
          = ((if decide (c ∈ ids) then 1 else 0) + sum_list (count_of clusters <$> ids))%nat)
    as ->.
  { clear IH. induction Hnd as [|i ids Hnotin Hnd IHi]; [done|].
    rewrite !fmap_cons.
    change (sum_list (?a :: ?l)) with (a + sum_list l)%nat.
    rewrite IHi. unfold count_of at 1 3. rewrite filter_cons.
    destruct (decide (c = i)) as [->|Hne].
    - rewrite (decide_True (P := i ∈ i :: ids)) by (by left).
      rewrite (decide_False (P := i ∈ ids)) by done. simpl. lia.
    - destruct (decide (c ∈ ids)) as [Hin|Hin].
      + rewrite (decide_True (P := c ∈ i :: ids)) by (by right). lia.
      + rewrite (decide_False (P := c ∈ i :: ids)); [lia|].
        intros [?|?]%elem_of_cons; done. }
  rewrite IH. destruct (decide (c ∈ ids)); simpl; lia.
Qed.

(** X5.  The dicts that [fit] fills before the loop hold, for every cluster
    of the value counts, a row count [n_i >= 1], slices of [Z] and [y] with
    [n_i] rows each and an [n_i × n_i] identity; the clusters are distinct,
    they are exactly the labels that occur, and their row counts add up to
    the number of observations. *)
Theorem partition_shapes (Z : matrix) (clusters : list label) (y : vector)
    (ctx : caches) (w : world) :
  length Z = length clusters → length y = length clusters →
  (build_caches (value_counts clusters) Z clusters y w).1 = Ok ctx →
  let ids := index (value_counts clusters) in
  NoDup ids ∧
  (∀ i, i ∈ ids ↔ i ∈ clusters) ∧
  sum_list (count_of clusters <$> ids) = length y ∧
  ∀ i, i ∈ ids →
    ∃ n_i Z_i y_i I_i,
      n_by_cluster ctx !! i = Some n_i ∧ Z_by_cluster ctx !! i = Some Z_i ∧
      y_by_cluster ctx !! i = Some y_i ∧ I_by_cluster ctx !! i = Some I_i ∧
      n_i = count_of clusters i ∧ (1 ≤ n_i)%nat ∧
      length Z_i = n_i ∧ length y_i = n_i ∧
      length I_i = n_i ∧ (∀ r, r ∈ I_i → length r = n_i).
Proof.
  intros HZ Hy Hctx. rewrite build_caches_run in Hctx. injection Hctx as <-.
  cbv zeta. split_and!.
  - apply NoDup_index_value_counts.
  - apply elem_of_index_value_counts.
  - rewrite sum_count_of by apply NoDup_index_value_counts.
    rewrite Hy. f_equal. apply filter_all.
    intros c Hc. by apply elem_of_index_value_counts.
  - intros i Hi.
    destruct (spec_caches_ok Z clusters y _ i Hi) as (Hm & HZi & Hyi & Hn & HI).
    eexists _, _, _, _. split_and!; try eassumption; try reflexivity.
    + apply count_of_pos. by apply elem_of_index_value_counts.
    + by apply length_mask_select_eq_mask.
    + by apply length_mask_select_eq_mask.
    + apply length_np_eye.
    + apply length_np_eye.
Qed.
End partition_facts.

Section e_step_facts.
Context `{Regressor} {label : Type} `{Countable label}.
Local Abbreviation world := (@world _ _ label).
Local Abbreviation caches := (@caches _ label _ _).

Lemma length_mask_assign {A} (a : list A) mask v : length (mask_assign a mask v) = length a.
Proof.
  revert mask v. induction a as [|x a IH]; intros [|[] mask] v; simpl; try done.
  - destruct v; simpl; by rewrite IH.
  - by rewrite IH.
Qed.

(** Row [k] after [y_star[clusters == i] = y[clusters == i] - Z[clusters == i].dot(b)]. *)
Lemma mask_assign_row (y_star y : vector) (Z : matrix) (clusters : list label) (b : vector) i k :
  length y_star = length clusters → length y = length clusters → length Z = length clusters →
  mask_assign y_star (eq_mask clusters i)
    (vsub (mask_select y (eq_mask clusters i))
          (mv_dot (mask_select Z (eq_mask clusters i)) b)) !! k
  = match y_star !! k, clusters !! k, y !! k, Z !! k with
    | Some s, Some c, Some yk, Some zk =>
        Some (if decide (c = i) then fsub yk (vdot zk b) else s)
    | _, _, _, _ => None
    end.
Proof.
  revert y Z clusters k.
  induction y_star as [|s y_star IH]; intros [|yk y] [|zk Z] [|c clusters] k Hs Hy HZ; try done.
  simpl in Hs, Hy, HZ. simpl. destruct (decide (c = i)) as [->|Hne].
  - rewrite bool_decide_eq_true_2 by done. simpl.
    destruct k as [|k]; simpl; [by rewrite decide_True|].
    apply IH; lia.
  - rewrite bool_decide_eq_false_2 by done.
    destruct k as [|k]; simpl; [by rewrite decide_False|].
    apply IH; lia.
Qed.

Lemma spec_y_star_row (Z : matrix) (clusters : list label) (y : vector)
    (ids : list label) (df : DataFrame label) (y_star : vector) k :
  length y_star = length clusters → length y = length clusters → length Z = length clusters →
  fold_left (λ ys i, mask_assign ys (eq_mask clusters i)
                       (vsub (y_of clusters y i) (mv_dot (Z_of Z clusters i) (b_of df i))))
            ids y_star !! k
  = match y_star !! k, clusters !! k, y !! k, Z !! k with
    | Some s, Some c, Some yk, Some zk =>
        Some (if decide (c ∈ ids) then fsub yk (vdot zk (b_of df c)) else s)
    | _, _, _, _ => None
    end.
Proof.
  intros Hs Hy HZ. revert y_star Hs. induction ids as [|a ids IH]; intros y_star Hs.
  { simpl.
    destruct (y_star !! k) eqn:E1, (clusters !! k) as [c|] eqn:E2, (y !! k) eqn:E3,
             (Z !! k) eqn:E4; try done;
      try (destruct (decide (c ∈ [])) as [Hin|_]; [by apply not_elem_of_nil in Hin|done]);
      exfalso;
      repeat match goal with
             | E : _ !! _ = Some _ |- _ => apply lookup_lt_Some in E
             | E : _ !! _ = None |- _ => apply lookup_ge_None in E
             end; lia. }
  simpl. rewrite IH by (by rewrite length_mask_assign).
  unfold y_of, Z_of. rewrite mask_assign_row by done.
  destruct (y_star !! k) as [s|], (clusters !! k) as [c|], (y !! k) as [yk|],
           (Z !! k) as [zk|]; try done.
  f_equal. destruct (decide (c ∈ ids)) as [Hin|Hin].
  - rewrite decide_True; [done|by right].
  - destruct (decide (c = a)) as [->|Hne].
    + rewrite decide_True; [done|by left].
    + rewrite decide_False; [done|]. intros [?|?]%elem_of_cons; done.
Qed.

(** X4.  With the dicts that [fit] has filled and a coefficient table
    indexed by the clusters, the E-step returns a vector with one entry per
    observation, in the order of the observations: entry [k] is
    [y[k] - Z[k]·b_hat_c] for the cluster [c] of row [k], read from the table
    as it is when the E-step starts; nothing in the world changes. *)
Theorem e_step_rows (Z : matrix) (clusters : list label) (y : vector)
    (ctx : caches) (l : loc) (w0 w : world) :
  length Z = length clusters → length y = length clusters →
  (build_caches (value_counts clusters) Z clusters y w0).1 = Ok ctx →
  index (heap w !!! l) = index (value_counts clusters) →
  ∃ y_star,
    e_step y (index (value_counts clusters)) ctx l w = (Ok y_star, w) ∧
    length y_star = length y ∧
    ∀ k c yk zk,
      clusters !! k = Some c → y !! k = Some yk → Z !! k = Some zk →
      y_star !! k = Some (fsub yk (vdot zk (b_of (heap w !!! l) c))).
Proof.
  intros HZ Hy Hctx Hidx. rewrite build_caches_run in Hctx. injection Hctx as <-.
  eexists. split; [apply e_step_run; [apply spec_caches_ok|done]|].
  unfold spec_y_star. split.
  - transitivity (length (np_zeros (length y)));
      [|unfold np_zeros; by rewrite length_replicate].
    generalize (np_zeros (length y)). intros v.
    induction (index (value_counts clusters)) as [|a ids IH] in v |- *; [done|].
    simpl. by rewrite IH, length_mask_assign.
  - intros k c yk zk Hc Hyk Hzk.
    rewrite spec_y_star_row by (done || (unfold np_zeros; by rewrite length_replicate)).
    rewrite Hc, Hyk, Hzk.
    destruct (np_zeros (length y) !! k) as [s|] eqn:Hs.
    + rewrite decide_True; [done|].
      apply elem_of_index_value_counts. by eapply list_elem_of_lookup_2.
    + apply lookup_ge_None in Hs. apply lookup_lt_Some in Hyk.
      unfold np_zeros in Hs. rewrite length_replicate in Hs. lia.
Qed.
End e_step_facts.

Section table_index.
Context `{Regressor} {label : Type} `{Countable label}.
Local Abbreviation world := (@world _ _ label).

(** X6.  After a call of [fit] that returns, the stored cluster counts are
    the value counts of the training labels, and the stored coefficient
    table has exactly one row per distinct training label, in the order of
    the counts: a label has a row exactly when it occurs in the training
    labels, so the lookup of [predict] never misses. *)
Theorem trained_table_index (X Z : matrix) (clusters : list label) (y : vector) (w w' : world) :
  fit X Z clusters y w = (Ok tt, w') →
  ∃ l,
    trained_b (self w') = Some l ∧
    cluster_counts (self w') = Some (value_counts clusters) ∧
    index (heap w' !!! l) = index (value_counts clusters) ∧
    NoDup (index (heap w' !!! l)) ∧
    ∀ i, is_Some (loc_get (heap w' !!! l) i) ↔ i ∈ clusters.
Proof.
  intros Hfit. destruct (fit_fitted _ _ _ _ _ _ Hfit) as (f & l & _ & Hb & Hcc & Hidx).
  exists l. split_and!; try done.
  - rewrite Hidx. apply NoDup_index_value_counts.
  - intros i. rewrite <- elem_of_index_value_counts, <- Hidx. split.
    + intros [v Hv]. clear -Hv. induction (heap w' !!! l) as [|[k u] df IH]; [done|].
      simpl in Hv. destruct (decide (k = i)) as [->|Hne]; [by left|right; by apply IH].
    + apply loc_get_is_Some.
Qed.
End table_index.

(** ** Frames, bounds and the stopping rule over the whole loop *)
Section loop_facts.
Context `{Regressor} {label : Type} `{Countable label}.
Local Abbreviation world := (@world _ _ label).
Local Abbreviation caches := (@caches _ label _ _).

Variables (X Z : matrix) (clusters : list label) (y : vector).

Lemma em_next_frames sw j :
  (j < length (heap sw.2))%nat → j ≠ b_hat_df sw.1 →
  heap (em_next X Z clusters y sw).2 !! j = heap sw.2 !! j.
Proof.
  intros Hj Hne. simpl.
  rewrite lookup_app_l by (by rewrite length_insert).
  by rewrite list_lookup_insert_ne.
Qed.

Lemma em_iter_frames budget sw j :
  (j < length (heap sw.2))%nat → j ≠ b_hat_df sw.1 →
  heap (em_iter X Z clusters y budget sw).2 !! j = heap sw.2 !! j.
Proof.
  revert sw. induction budget as [|b IH]; intros sw Hj Hne; simpl; [done|].
  destruct (stop_flag sw.1); [done|].
  rewrite IH; [by apply em_next_frames| |done].
  simpl. rewrite length_app, length_insert. lia.
Qed.

Lemma em_iter_heap_grows budget sw :
  (length (heap sw.2) ≤ length (heap (em_iter X Z clusters y budget sw).2))%nat.
Proof.
  revert sw. induction budget as [|b IH]; intros sw; simpl; [done|].
  destruct (stop_flag sw.1); [done|].
  etrans; [|apply IH]. simpl. rewrite length_app, length_insert. lia.
Qed.


(** X7.  A call of [fit] that returns changes no frame that was on the heap
    before the call: the snapshots and the coefficient table left by earlier
    calls keep their content. *)
Theorem fit_keeps_earlier_frames (w w' : world) :
  fit X Z clusters y w = (Ok tt, w') →
  (length (heap w) < length (heap w'))%nat ∧
  ∀ j, (j < length (heap w))%nat → heap w' !! j = heap w !! j.
Proof.
  intros Hfit. destruct (fit_Ok_inv _ _ _ _ _ _ Hfit) as (Hrows & Hy & Hmax & Hend).
  destruct (fit_end_frame clusters
              (em_iter X Z clusters y (Z.to_nat (max_iterations (self w)))
                 (fit_start Z clusters w))) as (_ & _ & Hheap & _).
  rewrite Hend in Hheap. simpl in Hheap. rewrite Hheap. split.
  - eapply Nat.lt_le_trans; [|apply em_iter_heap_grows]. simpl. rewrite length_app. simpl. lia.
  - intros j Hj. rewrite em_iter_frames.
    + simpl. by rewrite lookup_app_l.
    + simpl. rewrite length_app. lia.
    + simpl. lia.
Qed.

(** X9.  After a call of [fit] that returns, the entries that the call
    recorded before its first iteration in the two variance histories are
    still the initial components: the number 1 and the identity matrix of
    the width of [Z]. *)
Theorem initial_variance_entries (w w' : world) :
  fit X Z clusters y w = (Ok tt, w') →
  sigma2_hat_history (self w') !! length (sigma2_hat_history (self w)) = Some (of_int 1) ∧
  D_hat_history (self w') !! length (D_hat_history (self w)) = Some (np_eye (shape1 Z)).
Proof.
  intros Hfit. destruct (fit_Ok_inv _ _ _ _ _ _ Hfit) as (Hrows & Hy & Hmax & Hend).
  destruct (em_iter_prefix X Z clusters y (Z.to_nat (max_iterations (self w)))
              (fit_start Z clusters w)) as (_ & Hs & HD & _).
  unfold fit_end in Hend. destruct (rf _) in Hend; [|discriminate].
  injection Hend as <-. simpl in *. split.
  - eapply prefix_lookup_Some; [|exact Hs]. by apply list_lookup_middle.
  - eapply prefix_lookup_Some; [|exact HD]. by apply list_lookup_middle.
Qed.



Lemma em_next_stop sw :
  fit_inv clusters sw →
  stop_flag sw.1 = false →
  stop_flag (em_next X Z clusters y sw).1 = true →
  ∃ thr h g1 g2,
    gll_early_stop_threshold (self sw.2) = Some thr ∧
    gll_history (self (em_next X Z clusters y sw).2) = h ++ [g1; g2] ∧
    flt (fabs (fdiv (fsub g2 g1) g1)) thr = true.
Proof.
  destruct sw as [st w]. intros (_ & _ & Hbegun) Hstop. simpl in Hbegun, Hstop.
  unfold em_next. cbv zeta.
  cbn [fst snd stop_flag self gll_history append_gll append_history].
  set (g := spec_gll _ _ _ _ _ _ _ _). clearbody g. unfold next_flags.
  destruct (gll_early_stop_threshold (self w)) as [thr|]; [|simpl; congruence].
  destruct (iter_begun st); [|simpl; congruence].
  destruct (gll_history (self w)) as [|p h _] using rev_ind; [by destruct Hbegun|].
  rewrite last_snoc. simpl.
  destruct (flt (fabs (fdiv (fsub g p) p)) thr) eqn:Hflt; simpl; [|congruence].
  intros _. exists thr, h, p, g. split; [done|]. split; [|exact Hflt].
  by rewrite <- app_assoc.
Qed.

Lemma em_iter_stop budget sw :
  fit_inv clusters sw →
  stop_flag sw.1 = false →
  let sw' := em_iter X Z clusters y budget sw in
  (stop_flag sw'.1 = false ∧ iteration sw'.1 = (iteration sw.1 + Z.of_nat budget)%Z) ∨
  (∃ thr h g1 g2,
     gll_early_stop_threshold (self sw'.2) = Some thr ∧
     gll_history (self sw'.2) = h ++ [g1; g2] ∧
     flt (fabs (fdiv (fsub g2 g1) g1)) thr = true).
Proof.
  revert sw. induction budget as [|b IH]; intros sw Hinv Hstop; simpl.
  { left. split; [done|lia]. }
  rewrite Hstop.
  destruct (stop_flag (em_next X Z clusters y sw).1) eqn:Hstop'.
  - right. rewrite em_iter_stopped by done.
    destruct (em_next_stop sw Hinv Hstop Hstop') as (thr & h & g1 & g2 & Hthr & Hh & Hflt).
    by exists thr, h, g1, g2.
  - destruct (IH _ (fit_inv_next X Z clusters y sw Hinv) Hstop') as [[Hs Hit]|Hright].
    + left. split; [done|]. rewrite Hit, em_next_iteration. lia.
    + by right.
Qed.

(** X11.  For inputs of equal, non-zero row count: when the loop of [fit]
    ends before [max_iterations] iterations, a threshold is set and the
    relative change between the last two recorded GLL values is below it. *)
Theorem early_stop_is_justified (w : world) :
  same_rows X Z clusters y → y ≠ [] →
  (iterations_run X Z clusters y w < max_iterations (self w))%Z →
  ∃ thr h g1 g2,
    gll_early_stop_threshold (self w) = Some thr ∧
    gll_history (self (fit X Z clusters y w).2) = h ++ [g1; g2] ∧
    flt (fabs (fdiv (fsub g2 g1) g1)) thr = true.
Proof.
  intros Hrows Hy. unfold iterations_run. rewrite fit_run, fit_em_run by done. cbn [fst snd].
  intros Hlt.
  destruct (fit_end_frame clusters
              (em_iter X Z clusters y (Z.to_nat (max_iterations (self w)))
                 (fit_start Z clusters w))) as (Hg & _).
  rewrite Hg.
  destruct (em_iter_frame X Z clusters y (Z.to_nat (max_iterations (self w)))
              (fit_start Z clusters w)) as (_ & _ & _ & Hthr & _).
  destruct (em_iter_stop (Z.to_nat (max_iterations (self w))) (fit_start Z clusters w)
              (fit_inv_start Z clusters w) eq_refl) as [[_ Hit]|Hright].
  - rewrite Hit in Hlt. simpl in Hlt. lia.
  - destruct Hright as (thr & h & g1 & g2 & Hthr' & Hh & Hflt).
    exists thr, h, g1, g2. split_and!; [|done|done].
    rewrite <- Hthr'. symmetry. exact Hthr.
Qed.
End loop_facts.

(** ** Two calls of [fit] in step *)
Section in_step_facts.
Context `{Regressor} {label : Type} `{Countable label}.
Local Abbreviation world := (@world _ _ label).

Variables (X Z : matrix) (clusters : list label) (y : vector).

Lemma in_step_next sw1 sw2 :
  fit_inv clusters sw1 → fit_inv clusters sw2 →
  in_step sw1 sw2 →
  in_step (em_next X Z clusters y sw1) (em_next X Z clusters y sw2).
Proof.
  destruct sw1 as [st1 w1], sw2 as [st2 w2].
  intros (Hl1 & _ & _) (Hl2 & _ & _).
  intros (Hit & Hs & HD & Hstop & Hbegun & Hrf & Hrng & Hn & Hthr & Hdf & Hlast).
  simpl in *.
  assert (∀ (h : list (DataFrame label)) l df,
            (l < length h)%nat → (<[l := df]> h ++ [df]) !!! l = df) as Hlive.
  { intros h l df Hl. rewrite lookup_total_app_l by (by rewrite length_insert).
    by rewrite list_lookup_total_insert_eq. }
  unfold in_step, em_next. cbv zeta.
  cbn [fst snd iteration sigma2_hat D_hat stop_flag iter_begun rf b_hat_df
       self heap rng n_estimators gll_early_stop_threshold gll_history
       append_gll append_history].
  rewrite !Hlive by done.
  rewrite !last_snoc.
  rewrite <- Hs, <- HD, <- Hstop, <- Hbegun, <- Hrng, <- Hn, <- Hthr, <- Hdf, <- Hit.
  split_and!; try reflexivity.
  all: unfold next_flags; destruct (gll_early_stop_threshold (self w1)); [|done].
  all: destruct (iter_begun st1); [|done].
  all: simpl; by rewrite (Hlast eq_refl).
Qed.

Lemma in_step_iter budget sw1 sw2 :
  fit_inv clusters sw1 → fit_inv clusters sw2 →
  in_step sw1 sw2 →
  in_step (em_iter X Z clusters y budget sw1) (em_iter X Z clusters y budget sw2).
Proof.
  revert sw1 sw2. induction budget as [|b IH]; intros sw1 sw2 Hi1 Hi2 Hstep; simpl; [done|].
  assert (stop_flag sw1.1 = stop_flag sw2.1) as <- by apply Hstep.
  destruct (stop_flag sw1.1); [done|].
  apply IH; [by apply fit_inv_next|by apply fit_inv_next|by apply in_step_next].
Qed.

Lemma in_step_start (w1 w2 : world) :
  rng w1 = rng w2 →
  n_estimators (self w1) = n_estimators (self w2) →
  gll_early_stop_threshold (self w1) = gll_early_stop_threshold (self w2) →
  in_step (fit_start Z clusters w1) (fit_start Z clusters w2).
Proof.
  intros Hrng Hn Hthr. unfold in_step, fit_start. simpl.
  split_and!; try done.
  rewrite !lookup_total_app_r by done. by rewrite !Nat.sub_diag.
Qed.

(** X12.  Two calls of [fit] on the same inputs (of equal, non-zero row
    count), from models with the same [n_estimators], threshold and
    [max_iterations] and at the same position of the random stream, have the
    same outcome and run the same number of iterations; when they return
    they store the same forest, the same cluster counts and coefficient
    tables of the same content.  What the models held before (histories,
    an earlier trained forest or table, [min_iterations]) has no influence. *)
Theorem refit_gives_the_same_model (w1 w2 : world) :
  same_rows X Z clusters y → y ≠ [] →
  rng w1 = rng w2 →
  n_estimators (self w1) = n_estimators (self w2) →
  gll_early_stop_threshold (self w1) = gll_early_stop_threshold (self w2) →
  max_iterations (self w1) = max_iterations (self w2) →
  let r1 := fit X Z clusters y w1 in
  let r2 := fit X Z clusters y w2 in
  r1.1 = r2.1 ∧
  iterations_run X Z clusters y w1 = iterations_run X Z clusters y w2 ∧
  rng r1.2 = rng r2.2 ∧
  cluster_counts (self r1.2) = cluster_counts (self r2.2) ∧
  (r1.1 = Ok tt →
     trained_rf (self r1.2) = trained_rf (self r2.2) ∧
     ∃ l1 l2, trained_b (self r1.2) = Some l1 ∧ trained_b (self r2.2) = Some l2 ∧
              heap r1.2 !!! l1 = heap r2.2 !!! l2).
Proof.
  intros Hrows Hy Hrng Hn Hthr Hmax. cbv zeta.
  unfold iterations_run. rewrite !fit_run, !fit_em_run by done. cbn [fst snd].
  rewrite <- Hmax.
  pose proof (in_step_iter (Z.to_nat (max_iterations (self w1))) _ _
                (fit_inv_start Z clusters w1) (fit_inv_start Z clusters w2)
                (in_step_start w1 w2 Hrng Hn Hthr))
    as (Hit & _ & _ & _ & _ & Hrf & Hrng' & _ & _ & Hdf & _).
  set (sw1 := em_iter X Z clusters y _ (fit_start Z clusters w1)) in *.
  set (sw2 := em_iter X Z clusters y _ (fit_start Z clusters w2)) in *.
  unfold fit_end. rewrite <- Hrf.
  destruct (rf sw1.1) as [f|]; simpl; split_and!; try done.
  intros _. split; [done|]. by eexists _, _.
Qed.
End in_step_facts.

(** ** Edge cases of [fit] and the length of a prediction *)
Section edge_facts.
Context `{Regressor} {label : Type} `{Countable label}.
Local Abbreviation world := (@world _ _ label).

(** X13.  On a model left by a call of [fit] that returned, and for inputs
    with one cluster label, one row of [Z] and one forest prediction per
    row, [predict] returns one value per row. *)
Theorem predict_length (Xt Zt : matrix) (ct : list label) (yt : vector) (w0 w : world)
    (X Z : matrix) (clusters : list label) (f : forest) :
  fit Xt Zt ct yt w0 = (Ok tt, w) →
  trained_rf (self w) = Some f →
  length Z = length clusters →
  length (rf_predict f X) = length clusters →
  ∃ y_hat, predict X Z clusters w = (Ok y_hat, w) ∧ length y_hat = length clusters.
Proof.
  intros Hfit Hrf HZ Hp.
  destruct (fit_fitted _ _ _ _ _ _ Hfit) as (f' & l & Hrf' & Hb & Hcc & Hidx).
  assert (f' = f) as -> by congruence.
  eexists. split; [by apply (predict_run X Z clusters w f l (value_counts ct))|].
  rewrite <- Hp. generalize (rf_predict f X). intros v.
  induction (index (value_counts ct)) as [|a ids IH] in v |- *; [done|].
  simpl. by rewrite IH, length_mask_iadd.
Qed.

(** X14.  A call of [fit] on no observations never returns a model. *)
Theorem fit_on_no_data_fails (X Z : matrix) (clusters : list label) (w : world) :
  (fit X Z clusters [] w).1 ≠ Ok tt.
Proof.
  intros Hok.
  assert (fit X Z clusters [] w = (Ok tt, (fit X Z clusters [] w).2)) as Hfit.
  { destruct (fit X Z clusters [] w) as [r w']. simpl in *. by subst. }
  by destruct (fit_Ok_inv _ _ _ _ _ _ Hfit) as (_ & Hy & _).
Qed.

End edge_facts.

(** * The claims on concrete runs

    Runs of the embedding in the symbolic model, on two clusters (labels 7
    and 9) with three observations and one random-effect column. *)
Section runs.
Import Sym.
Local Abbreviation F := (float64 always).
Local Abbreviation R := (regressor always).
Local Abbreviation fit3 := (@fit F R nat _ _ X3 Z3 clusters3 y3).
Local Abbreviation runs3 := (@iterations_run F R nat _ _ X3 Z3 clusters3 y3).
Local Abbreviation ids3 := (index (value_counts clusters3)).

(** the M-step of a first iteration *)
Lemma m_step_frozen_components_witness :
  let w := (fit_start (H:=F) (H0:=R) Z3 clusters3 (fresh always 10 None 1)).2 in
  let f_hat := [Oob 0 0; Oob 0 1; Oob 0 2] in
  let table := spec_b_table (H:=F) Z3 clusters3 y3 f_hat (Lit 1) [[Lit 1]] ids3 (heap w !!! 0%nat) in
  m_step (H:=F) (H0:=R) ids3 (length y3) (nunique clusters3) (spec_caches (H:=F) Z3 clusters3 y3 ids3) f_hat 0 (Lit 1) [[Lit 1]] w
  = (Ok (spec_sigma2_next (H:=F) Z3 clusters3 y3 f_hat (Lit 1) [[Lit 1]] ids3 (length y3),
         spec_D_next (H:=F) Z3 clusters3 y3 f_hat (Lit 1) [[Lit 1]] ids3 (nunique clusters3)),
     set_heap (<[0%nat := table]> (heap w)) w) ∧
  (∀ i, i ∈ ids3 → loc_get table i
                   = Some (spec_b_hat (H:=F) Z3 clusters3 y3 f_hat (Lit 1) [[Lit 1]] i)) ∧
  index table = ids3.
Proof.
  apply (m_step_frozen_components (H:=F) (H0:=R) Z3 clusters3 y3
           [Oob 0 0; Oob 0 1; Oob 0 2] (spec_caches (H:=F) Z3 clusters3 y3 ids3)
           0 (Lit 1) [[Lit 1]] (fresh always 10 None 1)
           (fit_start (H:=F) (H0:=R) Z3 clusters3 (fresh always 10 None 1)).2).
  - vm_compute. reflexivity.
  - vm_compute. lia.
  - vm_compute. reflexivity.
  - discriminate.
  - discriminate.
Defined.

(** the first pass through the loop body *)
Lemma gll_of_iteration_witness :
  let sw := fit_start (H:=F) (H0:=R) Z3 clusters3 (fresh always 10 None 1) in
  ∃ st' w' f snap,
    em_body (H:=F) (H0:=R) X3 y3 ids3 (length y3) (nunique clusters3) (spec_caches (H:=F) Z3 clusters3 y3 ids3) sw.1 sw.2
    = (Ok st', w') ∧
    rf st' = Some f ∧
    sigma2_hat st' = spec_sigma2_next (H:=F) Z3 clusters3 y3 (oob_prediction_ f)
                       (sigma2_hat sw.1) (D_hat sw.1) ids3 (length y3) ∧
    D_hat st' = spec_D_next (H:=F) Z3 clusters3 y3 (oob_prediction_ f)
                  (sigma2_hat sw.1) (D_hat sw.1) ids3 (nunique clusters3) ∧
    heap w' !!! b_hat_df st' = spec_b_table (H:=F) Z3 clusters3 y3 (oob_prediction_ f)
                                 (sigma2_hat sw.1) (D_hat sw.1) ids3
                                 (heap sw.2 !!! b_hat_df sw.1) ∧
    last (sigma2_hat_history (self w')) = Some (sigma2_hat st') ∧
    last (D_hat_history (self w')) = Some (D_hat st') ∧
    last (b_hat_history (self w')) = Some snap ∧
    heap w' !!! snap = heap w' !!! b_hat_df st' ∧
    gll_history (self w')
    = gll_history (self sw.2)
      ++ [spec_gll (H:=F) Z3 clusters3 y3 ids3 (oob_prediction_ f)
            (heap w' !!! b_hat_df st') (sigma2_hat st') (D_hat st')].
Proof.
  apply (gll_of_iteration (H:=F) (H0:=R) X3 Z3 clusters3 y3
           (spec_caches (H:=F) Z3 clusters3 y3 ids3)
           (fit_start (H:=F) (H0:=R) Z3 clusters3 (fresh always 10 None 1)).1
           (fresh always 10 None 1)
           (fit_start (H:=F) (H0:=R) Z3 clusters3 (fresh always 10 None 1)).2).
  - vm_compute. reflexivity.
  - vm_compute. split; [lia|]. split; [reflexivity|discriminate].
  - discriminate.
  - discriminate.
Defined.

(** a threshold above every relative change, and a cap of five iterations *)
Lemma iterations_of_fit_witness :
  runs3 (fresh always 10 (Some (Lit 1000000)) 5) = 2%Z.
Proof.
  destruct (iterations_of_fit (H:=F) (H0:=R) X3 Z3 clusters3 y3
              (fresh always 10 (Some (Lit 1000000)) 5))
    as (_ & _ & Hstop & _).
  - vm_compute. auto.
  - discriminate.
  - apply (Hstop (Lit 1000000)).
    + reflexivity.
    + intros g1 g2 _ _. reflexivity.
Defined.

(** C3, counterexample.  With a threshold that every relative change is
    below (here 1e6, in a model where every comparison holds) and
    [max_iterations = 1], [fit] returns after one iteration, not two. *)
Lemma early_stop_needs_two_iterations_allowed :
  (fit3 (fresh always 10 (Some (Lit 1000000)) 1)).1 = Ok tt ∧
  runs3 (fresh always 10 (Some (Lit 1000000)) 1) = 1%Z ∧
  runs3 (fresh always 10 (Some (Lit 1000000)) 1) ≠ 2%Z.
Proof. vm_compute. split_and!; [reflexivity|reflexivity|discriminate]. Qed.

Lemma history_lengths_witness :
  let w := fresh always 10 None 2 in
  let w' := (fit3 w).2 in
  let n := Z.to_nat (runs3 w) in
  length (b_hat_history (self w')) = (length (b_hat_history (self w)) + (n + 1))%nat ∧
  length (sigma2_hat_history (self w')) = (length (sigma2_hat_history (self w)) + (n + 1))%nat ∧
  length (D_hat_history (self w')) = (length (D_hat_history (self w)) + (n + 1))%nat ∧
  length (gll_history (self w')) = (length (gll_history (self w)) + n)%nat.
Proof.
  apply (history_lengths (H:=F) (H0:=R) X3 Z3 clusters3 y3 (fresh always 10 None 2)
           (fit3 (fresh always 10 None 2)).2).
  vm_compute. reflexivity.
Defined.

(** C4, counterexample.  A second call of [fit] on the same model, one
    iteration each: the call returns, and the coefficient history has four
    entries and the GLL history two, not 1 + 1 and 1. *)
Lemma histories_accumulate_across_fits :
  let w1 := (fit3 (fresh always 10 None 1)).2 in
  let w2 := (fit3 w1).2 in
  (fit3 w1).1 = Ok tt ∧
  runs3 w1 = 1%Z ∧
  length (b_hat_history (self w2)) = 4%nat ∧
  length (sigma2_hat_history (self w2)) = 4%nat ∧
  length (D_hat_history (self w2)) = 4%nat ∧
  length (gll_history (self w2)) = 2%nat ∧
  length (b_hat_history (self w2)) ≠ Z.to_nat (runs3 w1 + 1) ∧
  length (gll_history (self w2)) ≠ Z.to_nat (runs3 w1).
Proof. vm_compute. split_and!; (reflexivity || discriminate). Qed.

(** After one iteration on a fresh model, entry 0 of [b_hat_history] is
    the frame stored as [trained_b], and it no longer holds the all-zero
    table it held when it was appended. *)
Lemma first_snapshot_is_live_table_witness :
  let w' := (fit3 (fresh always 10 None 1)).2 in
  (∃ l snap,
     b_hat_history (self w') !! 0%nat = Some l ∧
     trained_b (self w') = Some l ∧
     last (b_hat_history (self w')) = Some snap ∧
     snap ≠ l ∧
     heap w' !!! l = heap w' !!! snap) ∧
  b_hat_history (self w') !! 0%nat = Some 0%nat ∧
  heap w' !!! 0%nat ≠ zeros_frame (H:=F) ids3 1.
Proof.
  split; [|split].
  - apply (first_snapshot_is_live_table (H:=F) (H0:=R) X3 Z3 clusters3 y3
             (fresh always 10 None 1) (fit3 (fresh always 10 None 1)).2).
    vm_compute. reflexivity.
  - vm_compute. reflexivity.
  - vm_compute. discriminate.
Defined.

(** [y] one element shorter than [X] *)
Lemma fit_shape_mismatch_witness :
  @fit F R nat _ _ X3 Z3 clusters3 [Lit 4; Lit 5] (fresh always 10 None 5)
  = (Raise AssertionError, fresh always 10 None 5).
Proof.
  apply (fit_shape_mismatch (H:=F) (H0:=R)).
  vm_compute. intros (_ & Hy & _). discriminate Hy.
Defined.

(** a fitted model asked about a row of cluster 9 and a row of the unseen
    cluster 8 *)
Lemma predict_corrections_witness :
  let w := (fit3 (fresh always 10 None 2)).2 in
  let X := [[Lit 10]; [Lit 11]] in
  let Z := [[Lit 2]; [Lit 3]] in
  ∃ y_hat,
    @predict F R nat _ X Z [9; 8]%nat w = (Ok y_hat, w) ∧
    ∀ k i p z,
      [9; 8]%nat !! k = Some i → rf_predict (Regressor:=R) (1, 3)%nat X !! k = Some p →
      Z !! k = Some z →
      (i ∉ clusters3 → y_hat !! k = Some p) ∧
      (i ∈ clusters3 → y_hat !! k = Some (Add p (vdot (H:=F) z (b_of (H:=F) (heap w !!! 0%nat) i)))).
Proof.
  apply (predict_corrections (H:=F) (H0:=R) X3 Z3 clusters3 y3 (fresh always 10 None 2)
           (fit3 (fresh always 10 None 2)).2 [[Lit 10]; [Lit 11]] [[Lit 2]; [Lit 3]]
           [9; 8]%nat (1, 3)%nat 0%nat).
  - vm_compute. reflexivity.
  - vm_compute. reflexivity.
  - vm_compute. reflexivity.
  - reflexivity.
  - reflexivity.
Defined.

Lemma fit_needs_an_iteration_witness :
  ∃ w', fit3 (fresh always 10 None 0) = (Raise UnboundLocalError, w') ∧
        runs3 (fresh always 10 None 0) = 0%Z ∧
        rng w' = 0%nat ∧
        trained_rf (self w') = None ∧
        trained_b (self w') = None.
Proof.
  apply (fit_needs_an_iteration (H:=F) (H0:=R) X3 Z3 clusters3 y3 (fresh always 10 None 0)).
  - vm_compute. auto.
  - vm_compute. discriminate.
Defined.
End runs.


(** * The further properties on concrete runs *)
Section more_runs.
Import Sym.
Local Abbreviation F := (float64 always).
Local Abbreviation R := (regressor always).
Local Abbreviation fit3 := (@fit F R nat _ _ X3 Z3 clusters3 y3).
Local Abbreviation runs3 := (@iterations_run F R nat _ _ X3 Z3 clusters3 y3).
Local Abbreviation ids3 := (index (value_counts clusters3)).

(** a fresh model, a cap of zero iterations, then [predict] *)
Lemma predict_after_failed_fit_witness :
  let w' := (fit3 (fresh always 10 None 0)).2 in
  @predict F R nat _ [[Lit 10]] [[Lit 1]] [7%nat] w' = (Raise NotFittedError, w').
Proof.
  apply (predict_after_failed_fit (H:=F) (H0:=R) X3 Z3 clusters3 y3
           [[Lit 10]] [[Lit 1]] [7%nat] (fresh always 10 None 0)).
  - reflexivity.
  - vm_compute. discriminate.
Defined.

(** a fitted model, then a call with [y] too short *)
Lemma failed_fit_keeps_trained_model_witness :
  let w := (fit3 (fresh always 10 None 1)).2 in
  let w' := (@fit F R nat _ _ X3 Z3 clusters3 [Lit 4] w).2 in
  trained_rf (self w') = trained_rf (self w) ∧ trained_b (self w') = trained_b (self w).
Proof.
  apply (failed_fit_keeps_trained_model (H:=F) (H0:=R) X3 Z3 clusters3 [Lit 4]
           (fit3 (fresh always 10 None 1)).2).
  vm_compute. discriminate.
Defined.

(** the E-step of a second iteration *)
Lemma e_step_rows_witness :
  let w := (fit3 (fresh always 10 None 1)).2 in
  ∃ y_star,
    e_step (H:=F) (H0:=R) y3 ids3 (spec_caches (H:=F) Z3 clusters3 y3 ids3) 0 w = (Ok y_star, w) ∧
    length y_star = length y3 ∧
    ∀ k c yk zk,
      clusters3 !! k = Some c → y3 !! k = Some yk → Z3 !! k = Some zk →
      y_star !! k = Some (Sub yk (vdot (H:=F) zk (b_of (H:=F) (heap w !!! 0%nat) c))).
Proof.
  apply (e_step_rows (H:=F) (H0:=R) Z3 clusters3 y3 (spec_caches (H:=F) Z3 clusters3 y3 ids3)
           0 (fresh always 10 None 1) (fit3 (fresh always 10 None 1)).2).
  - reflexivity.
  - reflexivity.
  - vm_compute. reflexivity.
  - vm_compute. reflexivity.
Defined.

Lemma partition_shapes_witness :
  let ctx := spec_caches (H:=F) Z3 clusters3 y3 ids3 in
  NoDup ids3 ∧
  (∀ i, i ∈ ids3 ↔ i ∈ clusters3) ∧
  sum_list (count_of clusters3 <$> ids3) = length y3 ∧
  ∀ i, i ∈ ids3 →
    ∃ n_i Z_i y_i I_i,
      n_by_cluster ctx !! i = Some n_i ∧ Z_by_cluster ctx !! i = Some Z_i ∧
      y_by_cluster ctx !! i = Some y_i ∧ I_by_cluster ctx !! i = Some I_i ∧
      n_i = count_of clusters3 i ∧ (1 ≤ n_i)%nat ∧
      length Z_i = n_i ∧ length y_i = n_i ∧
      length I_i = n_i ∧ (∀ r, r ∈ I_i → length r = n_i).
Proof.
  apply (partition_shapes (H:=F) (H0:=R) Z3 clusters3 y3
           (spec_caches (H:=F) Z3 clusters3 y3 ids3) (fresh always 10 None 1)).
  - reflexivity.
  - reflexivity.
  - vm_compute. reflexivity.
Defined.

Lemma trained_table_index_witness :
  let w' := (fit3 (fresh always 10 None 2)).2 in
  ∃ l,
    trained_b (self w') = Some l ∧
    cluster_counts (self w') = Some (value_counts clusters3) ∧
    index (heap w' !!! l) = ids3 ∧
    NoDup (index (heap w' !!! l)) ∧
    ∀ i, is_Some (loc_get (heap w' !!! l) i) ↔ i ∈ clusters3.
Proof.
  apply (trained_table_index (H:=F) (H0:=R) X3 Z3 clusters3 y3 (fresh always 10 None 2)).
  vm_compute. reflexivity.
Defined.

(** a second call on a fitted model *)
Lemma fit_keeps_earlier_frames_witness :
  let w := (fit3 (fresh always 10 None 1)).2 in
  let w' := (fit3 w).2 in
  (length (heap w) < length (heap w'))%nat ∧
  ∀ j, (j < length (heap w))%nat → heap w' !! j = heap w !! j.
Proof.
  apply (fit_keeps_earlier_frames (H:=F) (H0:=R) X3 Z3 clusters3 y3
           (fit3 (fresh always 10 None 1)).2 (fit3 (fit3 (fresh always 10 None 1)).2).2).
  vm_compute. reflexivity.
Defined.


Lemma initial_variance_entries_witness :
  let w' := (fit3 (fresh always 10 None 2)).2 in
  sigma2_hat_history (self w') !! 0%nat = Some (Lit 1) ∧
  D_hat_history (self w') !! 0%nat = Some (np_eye (H:=F) (shape1 (H:=F) Z3)).
Proof.
  apply (initial_variance_entries (H:=F) (H0:=R) X3 Z3 clusters3 y3 (fresh always 10 None 2)
           (fit3 (fresh always 10 None 2)).2).
  vm_compute. reflexivity.
Defined.


(** a threshold above every relative change, and a cap of five iterations *)
Lemma early_stop_is_justified_witness :
  ∃ thr h g1 g2,
    Some (Lit 1000000) = Some thr ∧
    gll_history (self (fit3 (fresh always 10 (Some (Lit 1000000)) 5)).2) = h ++ [g1; g2] ∧
    always (Abs (Div (Sub g2 g1) g1)) thr = true.
Proof.
  apply (early_stop_is_justified (H:=F) (H0:=R) X3 Z3 clusters3 y3
           (fresh always 10 (Some (Lit 1000000)) 5)).
  - vm_compute. auto.
  - discriminate.
  - vm_compute. reflexivity.
Defined.

(** a fresh model against a model that has been fitted before, at the same
    position of the random stream *)
Lemma refit_gives_the_same_model_witness :
  let w1 := set_rng 1 (set_self (with_min_iterations 3) (fresh always 10 None 1)) in
  let w2 := (fit3 (fresh always 10 None 1)).2 in
  let r1 := fit3 w1 in
  let r2 := fit3 w2 in
  r1.1 = r2.1 ∧
  runs3 w1 = runs3 w2 ∧
  rng r1.2 = rng r2.2 ∧
  cluster_counts (self r1.2) = cluster_counts (self r2.2) ∧
  (r1.1 = Ok tt →
     trained_rf (self r1.2) = trained_rf (self r2.2) ∧
     ∃ l1 l2, trained_b (self r1.2) = Some l1 ∧ trained_b (self r2.2) = Some l2 ∧
              heap r1.2 !!! l1 = heap r2.2 !!! l2).
Proof.
  apply (refit_gives_the_same_model (H:=F) (H0:=R) X3 Z3 clusters3 y3
           (set_rng 1 (set_self (with_min_iterations 3) (fresh always 10 None 1)))
           (fit3 (fresh always 10 None 1)).2).
  - vm_compute. auto.
  - discriminate.
  - vm_compute. reflexivity.
  - vm_compute. reflexivity.
  - vm_compute. reflexivity.
  - vm_compute. reflexivity.
Defined.

Lemma predict_length_witness :
  let w := (fit3 (fresh always 10 None 2)).2 in
  ∃ y_hat,
    @predict F R nat _ [[Lit 10]; [Lit 11]] [[Lit 2]; [Lit 3]] [9; 8]%nat w = (Ok y_hat, w) ∧
    length y_hat = 2%nat.
Proof.
  apply (predict_length (H:=F) (H0:=R) X3 Z3 clusters3 y3 (fresh always 10 None 2)
           (fit3 (fresh always 10 None 2)).2 [[Lit 10]; [Lit 11]] [[Lit 2]; [Lit 3]]
           [9; 8]%nat (1, 3)%nat).
  - vm_compute. reflexivity.
  - vm_compute. reflexivity.
  - reflexivity.
  - reflexivity.
Defined.

End more_runs.
